(** * File-sharing server: access tokens, ownership scoping and share links

    A shallow embedding of [src/server/server.js] (the Express handlers and
    the [authenticateToken] middleware), of the upload filter configured for
    multer, and of [src/server/cloudinary.js].  The relational store, the
    file system, bcrypt and the JWT library are collaborators of the server;
    each is modelled by the smallest executable definition that the handlers
    can observe. *)

From Stdlib Require Import String Ascii List ZArith NArith Bool Lia DecimalString
  Permutation.
Import ListNotations.
Local Open Scope string_scope.
Local Open Scope list_scope.

(* ------------------------------------------------------------------ *)
(** ** JavaScript string helpers used by the server *)

Module Js.

(** [hay.includes(needle)] *)
Fixpoint includes (hay needle : string) : bool :=
  if String.prefix needle hay then true
  else match hay with
       | EmptyString => false
       | String _ rest => includes rest needle
       end.

Definition lower_ascii (c : ascii) : ascii :=
  let n := nat_of_ascii c in
  if (65 <=? n)%nat && (n <=? 90)%nat then ascii_of_nat (n + 32) else c.

(** [s.toLowerCase()] on the ASCII range *)
Fixpoint toLowerCase (s : string) : string :=
  match s with
  | EmptyString => EmptyString
  | String c rest => String (lower_ascii c) (toLowerCase rest)
  end.

(** [re.test(s)] for a regular expression that is an alternation of
    literal words, with no anchors: some word occurs somewhere in [s]. *)
Definition test (alternatives : list string) (s : string) : bool :=
  existsb (includes s) alternatives.

(** State of the backwards scan of node's POSIX [path.extname]. *)
Record ext_state := {
  startDot : option nat;
  startPart : nat;
  end_ : option nat;
  matchedSlash : bool;
  preDotState : Z
}.

Definition ext_init : ext_state :=
  {| startDot := None; startPart := 0; end_ := None;
     matchedSlash := true; preDotState := 0%Z |}.

(** One iteration per character, from index [i] down to 0; [chars] holds
    the characters [path[i]], [path[i-1]], ... *)
Fixpoint ext_scan (chars : list ascii) (i : nat) (s : ext_state) : ext_state :=
  match chars with
  | [] => s
  | c :: rest =>
      if Ascii.eqb c "/" then
        if negb (matchedSlash s) then
          {| startDot := startDot s; startPart := i + 1; end_ := end_ s;
             matchedSlash := matchedSlash s; preDotState := preDotState s |}
        else ext_scan rest (i - 1) s
      else
        let s1 :=
          match end_ s with
          | None => {| startDot := startDot s; startPart := startPart s;
                       end_ := Some (i + 1); matchedSlash := false;
                       preDotState := preDotState s |}
          | Some _ => s
          end in
        let s2 :=
          if Ascii.eqb c "." then
            match startDot s1 with
            | None => {| startDot := Some i; startPart := startPart s1;
                         end_ := end_ s1; matchedSlash := matchedSlash s1;
                         preDotState := preDotState s1 |}
            | Some _ =>
                if negb (preDotState s1 =? 1)%Z then
                  {| startDot := startDot s1; startPart := startPart s1;
                     end_ := end_ s1; matchedSlash := matchedSlash s1;
                     preDotState := 1%Z |}
                else s1
            end
          else
            match startDot s1 with
            | Some _ => {| startDot := startDot s1; startPart := startPart s1;
                           end_ := end_ s1; matchedSlash := matchedSlash s1;
                           preDotState := (-1)%Z |}
            | None => s1
            end in
        ext_scan rest (i - 1) s2
  end.

(** [path.extname(p)] *)
Definition extname (p : string) : string :=
  let s := ext_scan (rev (list_ascii_of_string p)) (String.length p - 1) ext_init in
  match startDot s, end_ s with
  | Some d, Some e =>
      if (preDotState s =? 0)%Z
         || ((preDotState s =? 1)%Z && (d =? e - 1)%nat && (d =? startPart s + 1)%nat)
      then ""
      else substring d (e - d) p
  | _, _ => ""
  end.

End Js.

(* ------------------------------------------------------------------ *)
(** ** Signed tokens

    [jwt.sign] and [jwt.verify] are modelled symbolically: a signed token
    is the record of what was signed, when, until when and under which
    key.  A token travels inside strings (the [Authorization] header, the
    share URL, the [share_token] column), so those strings are sequences of
    characters and embedded tokens. *)

(** The payload object; a field the object lacks reads as [undefined]. *)
Record claims := {
  claim_id : option Z;
  claim_username : option string;
  claim_fileId : option Z
}.

Record jwt := {
  payload : claims;
  iat : N;          (* issued at, in seconds *)
  exp : N;          (* expiry, in seconds *)
  key : string      (* the secret the signature was made with *)
}.

Inductive piece :=
| Chr (c : ascii)
| Tok (t : jwt).

Definition text := list piece.

Fixpoint plain (s : string) : text :=
  match s with
  | EmptyString => []
  | String c rest => Chr c :: plain rest
  end.

Definition claims_eq_dec (a b : claims) : {a = b} + {a <> b}.
Proof.
  decide equality; decide equality;
    try apply Z.eq_dec; try apply string_dec.
Defined.

Definition jwt_eq_dec (a b : jwt) : {a = b} + {a <> b}.
Proof.
  decide equality;
    try apply string_dec; try apply N.eq_dec; try apply claims_eq_dec.
Defined.

Definition piece_eq_dec (a b : piece) : {a = b} + {a <> b}.
Proof.
  decide equality; try apply ascii_dec; try apply jwt_eq_dec.
Defined.

Definition text_eq_dec (a b : text) : {a = b} + {a <> b} :=
  list_eq_dec piece_eq_dec a b.

Inductive jwt_error :=
| JwtMissing          (* 'jwt must be provided' *)
| JwtMalformed        (* 'jwt malformed' *)
| InvalidSignature    (* 'invalid signature' *)
| TokenExpired.       (* 'jwt expired' *)

Definition jwt_message (e : jwt_error) : string :=
  match e with
  | JwtMissing => "jwt must be provided"
  | JwtMalformed => "jwt malformed"
  | InvalidSignature => "invalid signature"
  | TokenExpired => "jwt expired"
  end.

(** [jwt.sign(payload, secret, { expiresIn: ttl })] at clock second [now].
    The library adds [iat] and [exp] in whole seconds and nothing random,
    so the token is determined by the payload, the secret and the second
    it was signed in. *)
Definition jwt_sign (p : claims) (secret : string) (ttl now : N) : text :=
  [Tok {| payload := p; iat := now; exp := (now + ttl)%N; key := secret |}].

(** [jwt.verify(token, secret)] at clock second [now]: the signature is
    checked first, then the expiry ([now >= exp] is expired). *)
Definition jwt_verify (token : text) (secret : string) (now : N)
  : jwt_error + claims :=
  match token with
  | [] => inl JwtMissing
  | [Tok t] =>
      if string_dec (key t) secret then
        if (now <? exp t)%N then inr (payload t) else inl TokenExpired
      else inl InvalidSignature
  | _ => inl JwtMalformed
  end.

Definition day : N := 86400.
Definition access_ttl : N := day.            (* expiresIn: '24h' *)
Definition share_ttl : N := 7 * day.         (* expiresIn: '7d' *)

(* ------------------------------------------------------------------ *)
(** ** The relational store

    Tables are the ones [init-db.js] creates.  A table is the list of its
    rows; the order in which a query returns rows is the store's own
    choice (see [arrange]).  The client is supabase-js as the handlers use
    it: [.insert(...).select()] returns the inserted rows, an update
    without [.select()] returns no rows, and [.single()] reports an error
    unless exactly one row matches. *)

Record user_row := {
  user_pk : Z;               (* users.id *)
  user_name : string;        (* users.username *)
  user_email : string;
  user_password : string     (* the stored hash *)
}.

Record file_row := {
  file_id : Z;               (* files.id *)
  user_id : Z;
  filename : string;
  original_name : string;
  file_path : string;
  file_size : Z;
  mime_type : string;
  is_shared : bool;
  share_token : option text;
  uploaded_at : N
}.

(** One [.eq(column, value)] of a query on [files].  A value read from a
    token's claims may be [undefined]; it equals no stored integer, and
    the store rejects a query that carries one (see [rejected]). *)
Inductive cond :=
| EqId (v : option Z)
| EqUserId (v : option Z)
| EqIsShared (b : bool)
| EqShareToken (t : text).

(** Equality on an INTEGER column.  The store compares only values it
    accepts: a query carrying [undefined] is rejected as a whole (see
    [rejected] and [checked]) and then reads and changes no row. *)
Definition eq_int (v : option Z) (x : Z) : bool :=
  match v with
  | Some n => (n =? x)%Z
  | None => false
  end.

Definition holds (c : cond) (r : file_row) : bool :=
  match c with
  | EqId v => eq_int v (file_id r)
  | EqUserId v => eq_int v (user_id r)
  | EqIsShared b => Bool.eqb (is_shared r) b
  | EqShareToken t =>
      match share_token r with
      | Some s => if text_eq_dec s t then true else false
      | None => false
      end
  end.

Definition query := list cond.

Definition matches (q : query) (r : file_row) : bool :=
  forallb (fun c => holds c r) q.

Definition select (q : query) (rows : list file_row) : list file_row :=
  filter (matches q) rows.

Definition update (q : query) (f : file_row -> file_row) (rows : list file_row)
  : list file_row :=
  map (fun r => if matches q r then f r else r) rows.

(** What the store does with the one call a handler makes: it answers,
    it answers with an error object (whatever the store or its client
    library holds to be an error), or the call throws. *)
Inductive fault :=
| Healthy
| Reports (message : string)
| Throws (message : string).

(** The [{ data, error }] object a store call resolves to. *)
Record reply (A : Type) := { data : option A; error : option string }.
Arguments data {A} _.
Arguments error {A} _.

(** The result of an awaited call inside [try { ... }]. *)
Inductive outcome (A : Type) :=
| Returned (a : A)
| Thrown (message : string).
Arguments Returned {A} _.
Arguments Thrown {A} _.

(** The call is awaited: a healthy store gives the reply the query
    computes. *)
Definition answer {A} (ft : fault) (r : reply A) : outcome (reply A) :=
  match ft with
  | Healthy => Returned r
  | Reports m => Returned {| data := None; error := Some m |}
  | Throws m => Thrown m
  end.

Definition failed {A} (message : string) : reply A :=
  {| data := None; error := Some message |}.

(** The error of [.single()] when the rows are not exactly one. *)
Definition no_single_row : string :=
  "JSON object requested, multiple (or no) rows returned".

(** [.single()]: the row when exactly one matches, an error otherwise, so
    that [data] is null only together with an [error]. *)
Definition single {A} (rows : list A) : reply A :=
  match rows with
  | [r] => {| data := Some r; error := None |}
  | _ => failed no_single_row
  end.

(** The rows of a select without [.single()]. *)
Definition rows_of {A} (rows : list A) : reply (list A) :=
  {| data := Some rows; error := None |}.

Definition quote : string := String (ascii_of_nat 34) EmptyString.

(** What an INTEGER column answers to the text 'undefined'. *)
Definition invalid_integer : string :=
  ("invalid input syntax for type integer: " ++ quote ++ "undefined"
   ++ quote)%string.

(** [.eq('id', undefined)] and [.eq('user_id', undefined)] send
    [eq.undefined] for an INTEGER column. *)
Definition undefined_value (c : cond) : bool :=
  match c with
  | EqId None | EqUserId None => true
  | _ => false
  end.

Definition rejected (q : query) : bool := existsb undefined_value q.

(** The reply to a query on [files]: the store rejects an undefined
    integer before it looks at any row. *)
Definition checked {A} (q : query) (r : reply A) : reply A :=
  if rejected q then failed invalid_integer else r.

(** The order in which a select returns its rows, chosen by the store:
    each row is put at the position the store picks for it.  With no
    picks the rows come in table order. *)
Fixpoint insert_at {A} (k : nat) (x : A) (l : list A) : list A :=
  match k, l with
  | S k', y :: l' => y :: insert_at k' x l'
  | _, _ => x :: l
  end.

Fixpoint arrange {A} (picks : list nat) (l : list A) : list A :=
  match l with
  | [] => []
  | x :: l' => insert_at (hd 0%nat picks) x (arrange (tl picks) l')
  end.

Definition fresh_id (ids : list Z) : Z :=
  (1 + fold_right Z.max 0 ids)%Z.

Definition duplicate_key : string :=
  "duplicate key value violates unique constraint".

(** [from('users').insert([row]).select()]: [username] and [email] are
    UNIQUE columns, the id is assigned by the store. *)
Definition insert_user (ft : fault) (rows : list user_row)
    (name pw mail : string) : outcome (reply (list user_row)) * list user_row :=
  match ft with
  | Healthy =>
      if existsb (fun r => String.eqb (user_name r) name
                           || String.eqb (user_email r) mail) rows
      then (Returned {| data := None; error := Some duplicate_key |}, rows)
      else
        let row := {| user_pk := fresh_id (map user_pk rows); user_name := name;
                      user_email := mail; user_password := pw |} in
        (Returned {| data := Some [row]; error := None |}, rows ++ [row])
  | Reports m => (Returned {| data := None; error := Some m |}, rows)
  | Throws m => (Thrown m, rows)
  end.

Definition not_null_user_id : string :=
  "null value in column user_id violates not-null constraint".

(** [from('files').insert([row]).select()]: [user_id] is NOT NULL,
    [is_shared] defaults to false, [share_token] to null, [uploaded_at] to
    the current time. *)
Definition insert_file (ft : fault) (rows : list file_row) (now : N)
    (owner : option Z) (stored original path : string) (size : Z)
    (mime : string) : outcome (reply (list file_row)) * list file_row :=
  match ft, owner with
  | Healthy, None =>
      (Returned {| data := None; error := Some not_null_user_id |}, rows)
  | Healthy, Some owner =>
      let row := {| file_id := fresh_id (map file_id rows); user_id := owner;
                    filename := stored; original_name := original;
                    file_path := path; file_size := size; mime_type := mime;
                    is_shared := false; share_token := None;
                    uploaded_at := now |} in
      (Returned {| data := Some [row]; error := None |}, rows ++ [row])
  | Reports m, _ => (Returned {| data := None; error := Some m |}, rows)
  | Throws m, _ => (Thrown m, rows)
  end.

(** [from('files').update(values).eq(...)...] with no [.select()]: the
    matching rows are changed and none is reported back, so [data] is
    null; a rejected query changes nothing. *)
Definition update_files (ft : fault) (q : query) (f : file_row -> file_row)
    (rows : list file_row) : outcome (reply (list file_row)) * list file_row :=
  match ft with
  | Healthy =>
      if rejected q then (Returned (failed invalid_integer), rows)
      else (Returned {| data := None; error := None |}, update q f rows)
  | Reports m => (Returned {| data := None; error := Some m |}, rows)
  | Throws m => (Thrown m, rows)
  end.

(* ------------------------------------------------------------------ *)
(** ** State of the server and what one request sees of its environment *)

Record world := {
  users : list user_row;
  files : list file_row;
  disk : list string          (* the paths that exist on the file system *)
}.

Definition existsSync (w : world) (p : string) : bool :=
  existsb (String.eqb p) (disk w).

Record moment := {
  now : N;                    (* the clock, in seconds *)
  store : fault;              (* how the store treats this request's call *)
  uniqueSuffix : string;      (* Date.now() + '-' + a random number *)
  order : list nat            (* the order the store returns rows in *)
}.

(* ------------------------------------------------------------------ *)
(** ** Requests and responses *)

Inductive method := GET | POST | DELETE | OtherMethod.

Inductive route :=
| ApiRegister                       (* /api/register *)
| ApiLogin                          (* /api/login *)
| ApiUpload                         (* /api/upload *)
| ApiFiles                          (* /api/files *)
| ApiFile (id : Z)                  (* /api/files/:id, the integer it names *)
| ApiFileDownload (id : Z)          (* /api/files/:id/download *)
| ApiFileShare (id : Z)             (* /api/files/:id/share *)
| ApiShared (token : text)          (* /api/shared/:token *)
| ApiHealth                         (* /api/health *)
| OtherPath.

(** The file part of a multipart upload, as multer hands it over. *)
Record upload_part := {
  originalname : string;
  mimetype : string;
  size : Z
}.

Record request := {
  req_method : method;
  req_route : route;
  authorization : option text;
  body_username : option string;
  body_password : option string;
  body_email : option string;
  part : option upload_part;
  protocol : string;
  host : string
}.

Record public_user := {
  pu_id : Z;
  pu_username : string;
  pu_email : string
}.

(** The columns [GET /api/files] selects. *)
Record file_summary := {
  s_id : Z;
  s_filename : string;
  s_original_name : string;
  s_file_size : Z;
  s_mime_type : string;
  s_is_shared : bool;
  s_uploaded_at : N
}.

Definition summary (r : file_row) : file_summary :=
  {| s_id := file_id r; s_filename := filename r;
     s_original_name := original_name r; s_file_size := file_size r;
     s_mime_type := mime_type r; s_is_shared := is_shared r;
     s_uploaded_at := uploaded_at r |}.

Inductive body :=
| Err (error_text : string) (details : option string)
| Session (message : string) (token : text) (user : public_user)
| Uploaded (message : string) (id : Z) (name : string) (bytes : Z) (type : string)
| Listing (rows : list file_summary)
| ShareLink (message : string) (shareUrl : text)
| Health (status message : string)
| Null.

Inductive response :=
| Json (status : nat) (b : body)
| SendFile (path name : string)     (* res.download(path, name) *)
| Unhandled (message : string)      (* an error left to Express: 500 *)
| NoRoute.                          (* no handler matched: Express's 404 *)

Inductive middleware :=
| Respond (r : response)
| Next (user : claims).

(* ------------------------------------------------------------------ *)
(** ** The upload filter (multer's [fileFilter]) *)

Definition allowedTypes : list string :=
  ["jpeg"; "jpg"; "png"; "gif"; "pdf"; "txt"; "doc"; "docx"; "xls"; "xlsx";
   "zip"; "rar"].

(** [true] is [cb(null, true)], [false] is
    [cb(new Error('Tipo de archivo no permitido'))]. *)
Definition fileFilter (file : upload_part) : bool :=
  let extname :=
    Js.test allowedTypes (Js.toLowerCase (Js.extname (originalname file))) in
  let mimetype := Js.test allowedTypes (mimetype file) in
  mimetype && extname.

Definition fileSize : Z := 10 * 1024 * 1024.

(** What multer leaves in [req.file]. *)
Record stored_file := {
  sf_filename : string;
  sf_originalname : string;
  sf_path : string;
  sf_size : Z;
  sf_mimetype : string
}.

Definition toString (z : Z) : string := NilZero.string_of_int (Z.to_int z).

Definition truthy (o : option string) : bool :=
  match o with
  | Some s => negb (String.eqb s "")
  | None => false
  end.

Definition str (o : option string) : string :=
  match o with
  | Some s => s
  | None => ""
  end.

(** [authHeader.split(' ')] *)
Fixpoint split_space (s : text) : list text :=
  match s with
  | [] => [[]]
  | Chr " " :: rest => [] :: split_space rest
  | c :: rest =>
      match split_space rest with
      | word :: words => (c :: word) :: words
      | [] => [[c]]
      end
  end.

(** [authHeader && authHeader.split(' ')[1]] *)
Definition bearer (authHeader : option text) : option text :=
  match authHeader with
  | None => None
  | Some [] => Some []
  | Some h => nth_error (split_space h) 1
  end.

Definition with_users (w : world) (us : list user_row) : world :=
  {| users := us; files := files w; disk := disk w |}.

Definition with_files (w : world) (fs : list file_row) : world :=
  {| users := users w; files := fs; disk := disk w |}.

Definition with_disk (w : world) (d : list string) : world :=
  {| users := users w; files := files w; disk := d |}.

(* ------------------------------------------------------------------ *)
(** ** The handlers of [server.js] *)

Section Server.

Variable JWT_SECRET : string.
Variable uploadsDir : string.
(** [bcrypt.hash(password, 10)] and [bcrypt.compare(password, hash)] *)
Variable bcrypt_hash : string -> string.
Variable bcrypt_compare : string -> string -> bool.

Definition internal_error : response :=
  Json 500 (Err "Error interno del servidor" None).

(** The middleware that guards every file route. *)
Definition authenticateToken (m : moment) (authHeader : option text)
  : middleware :=
  match bearer authHeader with
  | None => Respond (Json 401 (Err "Token de acceso requerido" None))
  | Some token =>
      match jwt_verify token JWT_SECRET (now m) with
      | inl _ => Respond (Json 403 (Err "Token inválido" None))
      | inr user => Next user
      end
  end.

Definition access_claims (uid : Z) (name : string) : claims :=
  {| claim_id := Some uid; claim_username := Some name;
     claim_fileId := None |}.

Definition share_claims (fileId : Z) : claims :=
  {| claim_id := None; claim_username := None; claim_fileId := Some fileId |}.

Definition access_token (m : moment) (u : user_row) : text :=
  jwt_sign (access_claims (user_pk u) (user_name u)) JWT_SECRET access_ttl (now m).

Definition public (u : user_row) : public_user :=
  {| pu_id := user_pk u; pu_username := user_name u; pu_email := user_email u |}.

(** POST /api/register *)
Definition register (m : moment) (w : world) (req : request)
  : response * world :=
  if negb (truthy (body_username req)) || negb (truthy (body_password req))
     || negb (truthy (body_email req))
  then (Json 400 (Err "Todos los campos son requeridos" None), w)
  else
    let hashedPassword := bcrypt_hash (str (body_password req)) in
    let '(res, users') :=
      insert_user (store m) (users w) (str (body_username req))
                  hashedPassword (str (body_email req)) in
    let w' := with_users w users' in
    match res with
    | Thrown _ => (internal_error, w')
    | Returned r =>
        match error r with
        | Some msg =>
            if Js.includes msg "duplicate key value"
            then (Json 400 (Err "Usuario o email ya existe" None), w')
            else (Json 500 (Err "Error al crear usuario" (Some msg)), w')
        | None =>
            match data r with
            | Some (newUser :: _) =>
                (Json 201 (Session "Usuario creado exitosamente"
                             (access_token m newUser) (public newUser)), w')
            | _ => (internal_error, w')      (* data[0] has no fields *)
            end
        end
    end.

(** POST /api/login *)
Definition login (m : moment) (w : world) (req : request) : response :=
  if negb (truthy (body_username req)) || negb (truthy (body_password req))
  then Json 400 (Err "Usuario y contraseña requeridos" None)
  else
    let username := str (body_username req) in
    let password := str (body_password req) in
    match answer (store m)
            (single (filter (fun u => String.eqb (user_name u) username)
                            (users w))) with
    | Thrown _ => internal_error
    | Returned r =>
        match error r with
        | Some msg => Json 500 (Err "Error interno del servidor" (Some msg))
        | None =>
            match data r with
            | None => Json 401 (Err "Credenciales inválidas" None)
            | Some u =>
                if negb (bcrypt_compare password (user_password u))
                then Json 401 (Err "Credenciales inválidas" None)
                else Json 200 (Session "Login exitoso" (access_token m u)
                                 (public u))
            end
        end
    end.

(** [if (!fs.existsSync(dir)) fs.mkdirSync(dir, { recursive: true })] *)
Definition ensure_dir (w : world) (dir : string) : world :=
  if existsSync w dir then w else with_disk w (dir :: disk w).

(** [upload.single('file')]: the filter, then the storage's destination,
    which makes the caller's directory, then the file written under it
    with the size limit enforced while writing.  [inl] is an error handed
    to Express, with the state it leaves. *)
Definition upload_single (m : moment) (w : world) (user : claims)
    (p : option upload_part)
  : (string * world) + (option stored_file * world) :=
  match p with
  | None => inr (None, w)
  | Some file =>
      if negb (fileFilter file) then inl ("Tipo de archivo no permitido", w)
      else
        match claim_id user with
        | None =>
            inl ("Cannot read properties of undefined (reading 'toString')",
                 w)
        | Some uid =>
            let userDir := (uploadsDir ++ "/" ++ toString uid)%string in
            let w1 := ensure_dir w userDir in
            let name := (uniqueSuffix m ++ "-" ++ originalname file)%string in
            if (size file >? fileSize)%Z then inl ("File too large", w1)
            else
              let path := (userDir ++ "/" ++ name)%string in
              inr (Some {| sf_filename := name;
                           sf_originalname := originalname file;
                           sf_path := path; sf_size := size file;
                           sf_mimetype := mimetype file |},
                   with_disk w1 (path :: disk w1))
        end
  end.

(** POST /api/upload, after the two middlewares *)
Definition upload (m : moment) (w : world) (user : claims)
    (file : option stored_file) : response * world :=
  match file with
  | None => (Json 400 (Err "No se seleccionó archivo" None), w)
  | Some f =>
      let '(res, files') :=
        insert_file (store m) (files w) (now m) (claim_id user)
                    (sf_filename f) (sf_originalname f) (sf_path f)
                    (sf_size f) (sf_mimetype f) in
      let w' := with_files w files' in
      match res with
      | Thrown _ => (Json 500 (Err "Error al subir archivo" None), w')
      | Returned r =>
          match error r with
          | Some msg =>
              (Json 500 (Err "Error al guardar archivo en base de datos"
                           (Some msg)), w')
          | None =>
              match data r with
              | Some (fileRecord :: _) =>
                  (Json 200 (Uploaded "Archivo subido exitosamente"
                               (file_id fileRecord) (sf_originalname f)
                               (sf_size f) (sf_mimetype f)), w')
              | _ => (Json 500 (Err "Error al subir archivo" None), w')
              end
          end
      end
  end.

(** GET /api/files *)
Definition list_query (user : claims) : query :=
  [EqUserId (claim_id user)].

Definition list_files (m : moment) (w : world) (user : claims) : response :=
  match answer (store m)
          (checked (list_query user)
             (rows_of (arrange (order m)
                               (select (list_query user) (files w))))) with
  | Thrown _ => internal_error
  | Returned r =>
      match error r with
      | Some msg => Json 500 (Err "Error al obtener archivos" (Some msg))
      | None =>
          match data r with
          | Some rows => Json 200 (Listing (map summary rows))
          | None => Json 200 Null
          end
      end
  end.

(** GET /api/files/:id/download *)
Definition download_query (user : claims) (fileId : Z) : query :=
  [EqId (Some fileId); EqUserId (claim_id user)].

Definition download (m : moment) (w : world) (user : claims) (fileId : Z)
  : response :=
  match answer (store m)
          (checked (download_query user fileId)
             (single (select (download_query user fileId) (files w)))) with
  | Thrown _ => internal_error
  | Returned r =>
      match error r with
      | Some msg => Json 500 (Err "Error al buscar archivo" (Some msg))
      | None =>
          match data r with
          | None => Json 404 (Err "Archivo no encontrado" None)
          | Some file =>
              if negb (existsSync w (file_path file))
              then Json 404 (Err "Archivo físico no encontrado" None)
              else SendFile (file_path file) (original_name file)
          end
      end
  end.

(** POST /api/files/:id/share *)
Definition share_query (user : claims) (fileId : Z) : query :=
  [EqId (Some fileId); EqUserId (claim_id user)].

Definition set_shared (shareToken : text) (r : file_row) : file_row :=
  {| file_id := file_id r; user_id := user_id r; filename := filename r;
     original_name := original_name r; file_path := file_path r;
     file_size := file_size r; mime_type := mime_type r;
     is_shared := true; share_token := Some shareToken;
     uploaded_at := uploaded_at r |}.

Definition mint_share (m : moment) (fileId : Z) : text :=
  jwt_sign (share_claims fileId) JWT_SECRET share_ttl (now m).

Definition share_url (req_protocol req_host : string) (shareToken : text)
  : text :=
  plain req_protocol ++ plain "://" ++ plain req_host
    ++ plain "/api/shared/" ++ shareToken.

Definition share (m : moment) (w : world) (user : claims) (fileId : Z)
    (req_protocol req_host : string) : response * world :=
  let shareToken := mint_share m fileId in
  let '(res, files') :=
    update_files (store m) (share_query user fileId)
                 (set_shared shareToken) (files w) in
  let w' := with_files w files' in
  match res with
  | Thrown _ => (internal_error, w')
  | Returned r =>
      match error r with
      | Some msg => (Json 500 (Err "Error al compartir archivo" (Some msg)), w')
      | None =>
          match data r with
          | None | Some [] => (Json 404 (Err "Archivo no encontrado" None), w')
          | Some _ =>
              (Json 200 (ShareLink "Archivo compartido exitosamente"
                           (share_url req_protocol req_host shareToken)), w')
          end
      end
  end.

(** GET /api/shared/:token *)
Definition shared_query (decoded : claims) (token : text) : query :=
  [EqId (claim_fileId decoded); EqIsShared true; EqShareToken token].

Definition shared (m : moment) (w : world) (token : text) : response :=
  match jwt_verify token JWT_SECRET (now m) with
  | inl e =>
      Json 500 (Err "Token inválido o error interno" (Some (jwt_message e)))
  | inr decoded =>
      match answer (store m)
              (checked (shared_query decoded token)
                 (single (select (shared_query decoded token) (files w)))) with
      | Thrown msg =>
          Json 500 (Err "Token inválido o error interno" (Some msg))
      | Returned r =>
          match error r with
          | Some msg =>
              Json 500 (Err "Error al obtener archivo compartido" (Some msg))
          | None =>
              match data r with
              | None =>
                  Json 404 (Err "Archivo no encontrado o no compartido" None)
              | Some file =>
                  if negb (existsSync w (file_path file))
                  then Json 404 (Err "Archivo físico no encontrado" None)
                  else SendFile (file_path file) (original_name file)
              end
          end
      end
  end.

(** A route guarded by [authenticateToken]. *)
Definition guarded (m : moment) (w : world) (req : request)
    (handler : claims -> response * world) : response * world :=
  match authenticateToken m (authorization req) with
  | Respond r => (r, w)
  | Next user => handler user
  end.

(** The routes the application registers, in order; a request that
    matches none of them gets the framework's 404. *)
Definition app (m : moment) (w : world) (req : request) : response * world :=
  match req_method req, req_route req with
  | POST, ApiRegister => register m w req
  | POST, ApiLogin => (login m w req, w)
  | POST, ApiUpload =>
      guarded m w req (fun user =>
        match upload_single m w user (part req) with
        | inl (message, w1) => (Unhandled message, w1)
        | inr (file, w1) => upload m w1 user file
        end)
  | GET, ApiFiles => guarded m w req (fun user => (list_files m w user, w))
  | GET, ApiFileDownload id =>
      guarded m w req (fun user => (download m w user id, w))
  | POST, ApiFileShare id =>
      guarded m w req (fun user =>
        share m w user id (protocol req) (host req))
  | GET, ApiShared token => (shared m w token, w)
  | GET, ApiHealth =>
      (Json 200 (Health "ok" "El servidor está funcionando correctamente"), w)
  | _, _ => (NoRoute, w)
  end.

End Server.

(* ------------------------------------------------------------------ *)
(** ** [cloudinary.js] *)

Module Cloudinary.

(** The public ids the object store holds. *)
Definition cloud := list string.

(** [cloudinary.uploader.destroy(publicId)] *)
Definition destroy (ft : fault) (c : cloud) (publicId : string)
  : outcome string * cloud :=
  match ft with
  | Healthy =>
      if existsb (String.eqb publicId) c
      then (Returned "ok",
            filter (fun p => negb (String.eqb publicId p)) c)
      else (Returned "not found", c)
  | Reports msg | Throws msg => (Thrown msg, c)
  end.

(** [deleteFile(publicId)]: the result of [destroy], or the error logged
    and thrown again.  The third component is what went to
    [console.error]. *)
Definition deleteFile (ft : fault) (c : cloud) (publicId : string)
  : outcome string * cloud * list string :=
  match destroy ft c publicId with
  | (Returned result, c') => (Returned result, c', [])
  | (Thrown msg, c') =>
      (Thrown msg, c', [("Error eliminando archivo: " ++ msg)%string])
  end.

(** The character class [a-zA-Z0-9.] of the public id. *)
Definition keeps (c : ascii) : bool :=
  let n := nat_of_ascii c in
  ((97 <=? n)%nat && (n <=? 122)%nat)
  || ((65 <=? n)%nat && (n <=? 90)%nat)
  || ((48 <=? n)%nat && (n <=? 57)%nat)
  || Ascii.eqb c ".".

(** [originalName.replace(/[^a-zA-Z0-9.]/g, '_')] *)
Fixpoint sanitize (s : string) : string :=
  match s with
  | EmptyString => EmptyString
  | String c rest => String (if keeps c then c else "_"%char) (sanitize rest)
  end.

Record upload_options := {
  resource_type : string;
  public_id : string;
  folder : string;
  secure : bool;
  transformation : list (string * string)
}.

(** What [uploadFile] resolves to. *)
Record uploaded := {
  up_public_id : string;
  up_secure_url : string;
  up_bytes : Z;
  up_format : string
}.

Definition uploadOptions (dateNow : Z) (originalName : string)
  : upload_options :=
  {| resource_type := "auto";
     public_id := ("files/" ++ toString dateNow ++ "-"
                   ++ sanitize originalName)%string;
     folder := "file-sharing-app";
     secure := true;
     transformation := [("quality", "auto"); ("fetch_format", "auto")]
  |}.

(** [uploadFile(buffer, originalName, mimeType)]: [upload_stream] is the
    uploader's call, which ends in a result or in an error. *)
Definition uploadFile (upload_stream : upload_options -> outcome uploaded)
    (dateNow : Z) (originalName mimeType : string) : outcome uploaded :=
  match upload_stream (uploadOptions dateNow originalName) with
  | Thrown e => Thrown e
  | Returned result =>
      Returned {| up_public_id := up_public_id result;
                  up_secure_url := up_secure_url result;
                  up_bytes := up_bytes result;
                  up_format := up_format result |}
  end.

End Cloudinary.

(* ------------------------------------------------------------------ *)
(** ** Start of [server.js]: the environment it reads *)

Module Startup.

Record environment := {
  SUPABASE_URL : option string;
  SUPABASE_SERVICE_KEY : option string;
  PORT : option string;
  JWT_SECRET : option string;
  CLIENT_URL : option string
}.

Record settings := {
  port : string;
  secret : string;
  origin : string
}.

(** [process.env.X || fallback] *)
Definition or_else (v : option string) (fallback : string) : string :=
  if truthy v then str v else fallback.

(** [None] is [process.exit(1)]. *)
Definition start (env : environment) : option settings :=
  if negb (truthy (SUPABASE_URL env)) || negb (truthy (SUPABASE_SERVICE_KEY env))
  then None
  else Some {| port := or_else (PORT env) "3000";
               secret := or_else (JWT_SECRET env) "tu_clave_secreta_muy_segura";
               origin := or_else (CLIENT_URL env) "http://localhost:3001" |}.

End Startup.

(* ------------------------------------------------------------------ *)
(** ** [init-db.js] *)

Module InitDb.

(** Which awaited call of the script fails, and with what. *)
Record plan := {
  connect_fails : option string;
  users_fails : option string;
  files_fails : option string
}.

Record run := {
  tables : list string;        (* the tables of the database afterwards *)
  connected : bool;            (* a client was checked out *)
  released : bool;             (* client.release() was reached *)
  end_called : bool;           (* pool.end() was called *)
  ended : bool;                (* the awaited pool.end() resolved *)
  logged : list string;        (* console.log *)
  errors : list string         (* console.error *)
}.

(** [await pool.end()] resolves once every client that was checked out
    has been given back. *)
Definition drained (was_connected was_released : bool) : bool :=
  negb was_connected || was_released.

(** [CREATE TABLE IF NOT EXISTS name (...)] *)
Definition create_if_not_exists (name : string) (ts : list string)
  : list string :=
  if existsb (String.eqb name) ts then ts else ts ++ [name].

Definition failure (e : string) : string :=
  ("❌ Error inicializando la base de datos: " ++ e)%string.

(** [initDatabase()], as the trace of one run: what happens to the
    tables, the client and the pool, and what is logged.  The [finally]
    block calls [pool.end()] in every run; the run gets past that [await]
    only when the call resolves ([ended]).  A run with [ended = false]
    stays there: the script neither returns nor lets the process exit. *)
Definition initDatabase (p : plan) (ts : list string) : run :=
  let l0 := ["Conectando a la base de datos..."] in
  match connect_fails p with
  | Some e =>
      {| tables := ts; connected := false; released := false;
         end_called := true; ended := drained false false;
         logged := l0; errors := [failure e] |}
  | None =>
      let l1 := l0 ++ ["✅ Conexión exitosa"] in
      match users_fails p with
      | Some e =>
          {| tables := ts; connected := true; released := false;
             end_called := true; ended := drained true false;
             logged := l1; errors := [failure e] |}
      | None =>
          let ts1 := create_if_not_exists "users" ts in
          let l2 := l1 ++ ["✅ Tabla users creada"] in
          match files_fails p with
          | Some e =>
              {| tables := ts1; connected := true; released := false;
                 end_called := true; ended := drained true false;
                 logged := l2; errors := [failure e] |}
          | None =>
              let ts2 := create_if_not_exists "files" ts1 in
              {| tables := ts2; connected := true; released := true;
                 end_called := true; ended := drained true true;
                 logged := l2 ++ ["✅ Tabla files creada";
                                  "✅ Base de datos inicializada correctamente"];
                 errors := [] |}
          end
      end
  end.

Definition no_failure : plan :=
  {| connect_fails := None; users_fails := None; files_fails := None |}.

End InitDb.

(* ------------------------------------------------------------------ *)
(** ** The client: [AuthProvider] and the dashboard's requests *)

Module Client.

(** What [localStorage] holds under 'user': the JSON of a user, or the
    text 'undefined' that [setItem] makes of an undefined value. *)
Inductive item :=
| ItemJson (u : public_user)
| ItemUndefined.

Record state := {
  user : option public_user;          (* useState *)
  token : option text;
  loading : bool;
  storage_token : option text;        (* localStorage *)
  storage_user : option item;
  header : option text                (* axios.defaults.headers.common *)
}.

Definition initial (saved_token : option text) (saved_user : option item)
  : state :=
  {| user := None; token := None; loading := true;
     storage_token := saved_token; storage_user := saved_user;
     header := None |}.

Definition nonempty (t : option text) : bool :=
  match t with
  | Some (_ :: _) => true
  | _ => false
  end.

(** [isAuthenticated: !!token] *)
Definition isAuthenticated (st : state) : bool := nonempty (token st).

(** Template text [`Bearer ${token}`]. *)
Definition bearer_of (t : option text) : text :=
  plain "Bearer " ++ match t with
                     | Some tk => tk
                     | None => plain "null"
                     end.

(** The effect run when the provider mounts; [JSON.parse] throws on the
    text 'undefined'. *)
Definition mount (st : state) : outcome state :=
  match storage_token st, storage_user st with
  | Some (c :: tk), Some (ItemJson u) =>
      Returned {| user := Some u; token := Some (c :: tk); loading := false;
                  storage_token := storage_token st;
                  storage_user := storage_user st;
                  header := Some (bearer_of (Some (c :: tk))) |}
  | Some (_ :: _), Some ItemUndefined =>
      Thrown "Unexpected token u in JSON at position 0"
  | _, _ =>
      Returned {| user := user st; token := token st; loading := false;
                  storage_token := storage_token st;
                  storage_user := storage_user st; header := header st |}
  end.

(** [axios.post] resolves for a status from 200 to 299 and rejects
    otherwise; [None] is a rejection. *)
Definition resolved (r : response) : option body :=
  match r with
  | Json status b =>
      if (200 <=? status)%nat && (status <? 300)%nat then Some b else None
  | SendFile _ _ => Some Null
  | Unhandled _ | NoRoute => None
  end.

(** [const { token, user } = response.data] *)
Definition data_token (b : body) : option text :=
  match b with
  | Session _ tk _ => Some tk
  | _ => None
  end.

Definition data_user (b : body) : option public_user :=
  match b with
  | Session _ _ u => Some u
  | _ => None
  end.

(** The body shared by [login] and [register], given the server's answer
    to the POST.  The boolean is the promise's value. *)
Definition signed_in (st : state) (answer : response) : bool * state :=
  match resolved answer with
  | None => (false, st)
  | Some b =>
      let tk := data_token b in
      let u := data_user b in
      let shown := match tk with
                   | Some t => t
                   | None => plain "undefined"
                   end in
      (true,
       {| user := u; token := tk; loading := loading st;
          storage_token := Some shown;
          storage_user := Some (match u with
                                | Some v => ItemJson v
                                | None => ItemUndefined
                                end);
          header := Some (plain "Bearer " ++ shown) |})
  end.

Definition logout (st : state) : state :=
  {| user := None; token := None; loading := loading st;
     storage_token := None; storage_user := None; header := None |}.

(** The header the dashboard's requests carry:
    [`Bearer ${localStorage.getItem('token')}`]. *)
Definition dashboard_header (st : state) : option text :=
  Some (bearer_of (storage_token st)).

End Client.

(* ------------------------------------------------------------------ *)
(** ** A small deployment used to run the handlers *)

Module Sample.

Definition secret : string := "tu_clave_secreta_muy_segura".
Definition dir : string := "/srv/uploads".
Definition hash (pw : string) : string := ("$2a$10$" ++ pw)%string.
Definition compare (pw h : string) : bool := String.eqb (hash pw) h.

Definition alice : user_row :=
  {| user_pk := 1; user_name := "alice"; user_email := "a@x.com";
     user_password := hash "pw123456" |}.

Definition bob : user_row :=
  {| user_pk := 2; user_name := "bob"; user_email := "b@x.com";
     user_password := hash "hunter22" |}.

Definition notes : file_row :=
  {| file_id := 7; user_id := 1; filename := "1700000000-42-notes.txt";
     original_name := "notes.txt";
     file_path := "/srv/uploads/1/1700000000-42-notes.txt";
     file_size := 1024; mime_type := "text/plain"; is_shared := false;
     share_token := None; uploaded_at := 1700000000 |}.

Definition report : file_row :=
  {| file_id := 9; user_id := 2; filename := "1700000100-7-report.pdf";
     original_name := "report.pdf";
     file_path := "/srv/uploads/2/1700000100-7-report.pdf";
     file_size := 2048; mime_type := "application/pdf"; is_shared := false;
     share_token := None; uploaded_at := 1700000100 |}.

Definition w0 : world :=
  {| users := [alice; bob]; files := [notes; report];
     disk := ["/srv/uploads/1"; file_path notes;
              "/srv/uploads/2"; file_path report] |}.

(** The same registry after the stored object of [notes] was lost. *)
Definition w_lost : world :=
  {| users := [alice; bob]; files := [notes; report];
     disk := ["/srv/uploads/1"; "/srv/uploads/2"; file_path report] |}.

Definition at_ (t : N) : moment :=
  {| now := t; store := Healthy; uniqueSuffix := "1700000200-99";
     order := [] |}.

Definition failing (t : N) (msg : string) : moment :=
  {| now := t; store := Reports msg; uniqueSuffix := "1700000200-99";
     order := [] |}.

Definition as_alice : claims :=
  {| claim_id := Some 1%Z; claim_username := Some "alice";
     claim_fileId := None |}.

Definition as_bob : claims :=
  {| claim_id := Some 2%Z; claim_username := Some "bob";
     claim_fileId := None |}.

Definition bearer_header (token : text) : option text :=
  Some (plain "Bearer " ++ token).

Definition get (r : route) (auth : option text) : request :=
  {| req_method := GET; req_route := r; authorization := auth;
     body_username := None; body_password := None; body_email := None;
     part := None; protocol := "https"; host := "files.example.org" |}.

Definition post_login (name pw : string) : request :=
  {| req_method := POST; req_route := ApiLogin; authorization := None;
     body_username := Some name; body_password := Some pw;
     body_email := None; part := None; protocol := "https";
     host := "files.example.org" |}.

Definition post_upload (auth : option text) (file : upload_part) : request :=
  {| req_method := POST; req_route := ApiUpload; authorization := auth;
     body_username := None; body_password := None; body_email := None;
     part := Some file; protocol := "https"; host := "files.example.org" |}.

Definition notes_txt : upload_part :=
  {| originalname := "notes.txt"; mimetype := "text/plain"; size := 1024 |}.

Definition setup_exe : upload_part :=
  {| originalname := "setup.exe"; mimetype := "application/x-msdownload";
     size := 1024 |}.

Definition photo_jpg : upload_part :=
  {| originalname := "photo.JPG"; mimetype := "image/jpeg"; size := 1024 |}.

Definition post_share (id : Z) (auth : option text) : request :=
  {| req_method := POST; req_route := ApiFileShare id; authorization := auth;
     body_username := None; body_password := None; body_email := None;
     part := None; protocol := "https"; host := "files.example.org" |}.

(** Alice shares [notes], then shares it again. *)
Definition first_share : response * world :=
  share secret (at_ 1700000300) w0 as_alice 7 "https" "files.example.org".

Definition first_token : text := mint_share secret (at_ 1700000300) 7.

Definition share_again (t : N) : response * world :=
  share secret (at_ t) (snd first_share) as_alice 7 "https"
        "files.example.org".


Definition access_token_of_alice : text :=
  jwt_sign as_alice secret access_ttl 1700000300.

Definition letter_doc : upload_part :=
  {| originalname := "letter.doc"; mimetype := "application/msword";
     size := 1024 |}.

Definition sheet_xls : upload_part :=
  {| originalname := "sheet.xls"; mimetype := "application/vnd.ms-excel";
     size := 1024 |}.

Definition macro_docm : upload_part :=
  {| originalname := "macro.docm";
     mimetype := "application/vnd.ms-word.document.macroEnabled.12";
     size := 1024 |}.

Definition refused : string := "connect ECONNREFUSED db.internal:5432".

Definition run (m : moment) (w : world) (req : request) : response * world :=
  app secret dir hash compare m w req.

Definition post_register (name pw mail : string) : request :=
  {| req_method := POST; req_route := ApiRegister; authorization := None;
     body_username := Some name; body_password := Some pw;
     body_email := Some mail; part := None; protocol := "https";
     host := "files.example.org" |}.

Definition carol : request := post_register "carol" "s3cret!!" "c@x.com".

Definition big_zip : upload_part :=
  {| originalname := "backup.zip"; mimetype := "application/zip";
     size := 10485761 |}.

(** Carol has registered and has uploaded nothing yet. *)
Definition w_carol : world := snd (run (at_ 1700000300) w0 carol).

Definition as_carol : claims :=
  {| claim_id := Some 3%Z; claim_username := Some "carol";
     claim_fileId := None |}.

Definition access_token_of_carol : text :=
  jwt_sign as_carol secret access_ttl 1700000300.

Definition makefile : upload_part :=
  {| originalname := "Makefile"; mimetype := "application/zip"; size := 64 |}.

Definition dot_pdf : upload_part :=
  {| originalname := ".pdf"; mimetype := "application/pdf"; size := 64 |}.

Definition upload_photo : request :=
  post_upload (bearer_header access_token_of_alice) photo_jpg.

Definition env0 : Startup.environment :=
  {| Startup.SUPABASE_URL := Some "https://project.supabase.co";
     Startup.SUPABASE_SERVICE_KEY := Some "service-role-key";
     Startup.PORT := None; Startup.JWT_SECRET := None;
     Startup.CLIENT_URL := None |}.

Definition settings0 : Startup.settings :=
  {| Startup.port := "3000";
     Startup.secret := "tu_clave_secreta_muy_segura";
     Startup.origin := "http://localhost:3001" |}.

Definition fresh_browser : Client.state := Client.initial None None.

End Sample.

(** The request the client's [handleDelete] sends. *)
Definition delete_request (auth : option text) (fileId : Z) (proto h : string)
  : request :=
  {| req_method := DELETE; req_route := ApiFile fileId; authorization := auth;
     body_username := None; body_password := None; body_email := None;
     part := None; protocol := proto; host := h |}.

(** The caller owns the row: [user_id = req.user.id]. *)
Definition owned_by (user : claims) (r : file_row) : bool :=
  eq_int (claim_id user) (user_id r).

Definition find_file (id : Z) (rows : list file_row) : option file_row :=
  find (fun r => (file_id r =? id)%Z) rows.

Definition details_of (r : response) : option string :=
  match r with
  | Json _ (Err _ d) => d
  | _ => None
  end.

(** The sharing flag and the stored token go together. *)
Definition sharing_consistent (r : file_row) : Prop :=
  is_shared r = true <-> share_token r <> None.

(** The two answers of [authenticateToken] to a request it stops. *)
Definition unauthorized : response :=
  Json 401 (Err "Token de acceso requerido" None).

Definition forbidden : response := Json 403 (Err "Token inválido" None).

(* ------------------------------------------------------------------ *)
(** ** Queries *)

Lemma select_In q rows r :
  In r (select q rows) <-> In r rows /\ matches q r = true.
Proof. unfold select. apply filter_In. Qed.

Lemma select_id_absent q rows id :
  ~ In id (map file_id rows) -> select (EqId (Some id) :: q) rows = [].
Proof.
  induction rows as [|r rows IH]; intros Hout; [reflexivity|].
  unfold select in *. cbn [filter matches forallb holds eq_int].
  cbn [map In] in Hout.
  destruct (Z.eqb_spec id (file_id r)) as [->|Hne].
  - exfalso. apply Hout. now left.
  - cbn [andb]. apply IH. intros Hin. apply Hout. now right.
Qed.

Lemma select_id_unique q rows f :
  NoDup (map file_id rows) -> In f rows ->
  select (EqId (Some (file_id f)) :: q) rows = if matches q f then [f] else [].
Proof.
  induction rows as [|r rows IH]; intros Hnd Hin; [contradiction|].
  cbn [map] in Hnd. inversion Hnd as [|x xs Hout Hnd']; subst.
  unfold select in *. cbn [filter matches forallb holds eq_int].
  destruct Hin as [->|Hin].
  - rewrite Z.eqb_refl. cbn [andb].
    pose proof (select_id_absent q rows (file_id f) Hout) as Hrest.
    unfold select in Hrest. cbn [matches forallb holds eq_int] in Hrest.
    fold (matches q f). rewrite Hrest. destruct (matches q f); reflexivity.
  - destruct (Z.eqb_spec (file_id f) (file_id r)) as [Heq|Hne].
    + exfalso. apply Hout. rewrite <- Heq. now apply in_map.
    + cbn [andb]. now apply IH.
Qed.

Lemma select_scoped q user rows :
  In (EqUserId (claim_id user)) q ->
  Forall (fun r => owned_by user r = true) (select q rows).
Proof.
  intros Hq. apply Forall_forall. intros r Hr.
  apply select_In in Hr. destruct Hr as [_ Hm].
  unfold matches in Hm. rewrite forallb_forall in Hm.
  exact (Hm _ Hq).
Qed.

Lemma select_only_own q user rows :
  In (EqUserId (claim_id user)) q ->
  select q (filter (owned_by user) rows) = select q rows.
Proof.
  intros Hq. unfold select. induction rows as [|r rows IH]; [reflexivity|].
  cbn [filter]. destruct (owned_by user r) eqn:Hown.
  - cbn [filter]. now rewrite IH.
  - rewrite IH. destruct (matches q r) eqn:Hm; [|reflexivity].
    unfold matches in Hm. rewrite forallb_forall in Hm.
    specialize (Hm _ Hq). cbn [holds] in Hm. unfold owned_by in Hown.
    congruence.
Qed.

Lemma update_keeps_others q user f rows :
  In (EqUserId (claim_id user)) q ->
  (forall r, user_id (f r) = user_id r) ->
  filter (fun r => negb (owned_by user r)) (update q f rows)
  = filter (fun r => negb (owned_by user r)) rows.
Proof.
  intros Hq Hf. unfold update.
  induction rows as [|r rows IH]; [reflexivity|].
  cbn [map filter]. rewrite IH.
  destruct (matches q r) eqn:Hm; [|reflexivity].
  unfold matches in Hm. rewrite forallb_forall in Hm.
  specialize (Hm _ Hq). cbn [holds] in Hm.
  unfold owned_by. rewrite Hf, Hm. reflexivity.
Qed.

Lemma with_files_same w : with_files w (files w) = w.
Proof. now destruct w. Qed.

(* ------------------------------------------------------------------ *)
(** ** The handlers, case by case *)

Lemma rejected_matches q r : rejected q = true -> matches q r = false.
Proof.
  unfold rejected, matches. induction q as [|c q IH]; [discriminate|].
  cbn [existsb forallb]. intros H. apply orb_true_iff in H.
  destruct H as [Hc|Hq].
  - destruct c as [[v|]|[v|]|b|t]; try discriminate; reflexivity.
  - rewrite (IH Hq). apply andb_false_r.
Qed.

Lemma rejected_update q f rows : rejected q = true -> update q f rows = rows.
Proof.
  intros Hq. unfold update. induction rows as [|r rows IH]; [reflexivity|].
  cbn [map]. now rewrite (rejected_matches q r Hq), IH.
Qed.

Lemma arrange_nil {A} (l : list A) : arrange [] l = l.
Proof. induction l as [|x l IH]; [reflexivity|]. cbn. now rewrite IH. Qed.

Section Properties.

Variable JWT_SECRET : string.

Lemma share_response m w user fileId proto h :
  fst (share JWT_SECRET m w user fileId proto h) =
  match store m with
  | Healthy =>
      if rejected (share_query user fileId)
      then Json 500 (Err "Error al compartir archivo" (Some invalid_integer))
      else Json 404 (Err "Archivo no encontrado" None)
  | Reports msg => Json 500 (Err "Error al compartir archivo" (Some msg))
  | Throws _ => internal_error
  end.
Proof.
  unfold share, update_files. destruct (store m); try reflexivity.
  destruct (rejected (share_query user fileId)); reflexivity.
Qed.

Lemma share_effect m w user fileId proto h :
  snd (share JWT_SECRET m w user fileId proto h) =
  match store m with
  | Healthy =>
      with_files w (update (share_query user fileId)
                           (set_shared (mint_share JWT_SECRET m fileId))
                           (files w))
  | _ => w
  end.
Proof.
  unfold share, update_files.
  destruct (store m); try (cbn; apply with_files_same).
  destruct (rejected (share_query user fileId)) eqn:Hq.
  - rewrite (rejected_update _ _ _ Hq). reflexivity.
  - reflexivity.
Qed.

Lemma download_cases m w user fileId :
  download m w user fileId =
  match store m with
  | Healthy =>
      if rejected (download_query user fileId)
      then Json 500 (Err "Error al buscar archivo" (Some invalid_integer))
      else
        match select (download_query user fileId) (files w) with
        | [file] =>
            if existsSync w (file_path file)
            then SendFile (file_path file) (original_name file)
            else Json 404 (Err "Archivo físico no encontrado" None)
        | _ => Json 500 (Err "Error al buscar archivo" (Some no_single_row))
        end
  | Reports msg => Json 500 (Err "Error al buscar archivo" (Some msg))
  | Throws _ => internal_error
  end.
Proof.
  unfold download, answer, checked. destruct (store m); try reflexivity.
  destruct (rejected (download_query user fileId)); [reflexivity|].
  destruct (select (download_query user fileId) (files w)) as [|file [|]];
    cbn; try reflexivity.
  destruct (existsSync w (file_path file)); reflexivity.
Qed.

Lemma list_cases m w user :
  list_files m w user =
  match store m with
  | Healthy =>
      if rejected (list_query user)
      then Json 500 (Err "Error al obtener archivos" (Some invalid_integer))
      else Json 200 (Listing (map summary
                                (arrange (order m)
                                   (select (list_query user) (files w)))))
  | Reports msg => Json 500 (Err "Error al obtener archivos" (Some msg))
  | Throws _ => internal_error
  end.
Proof.
  unfold list_files, answer, checked. destruct (store m); try reflexivity.
  destruct (rejected (list_query user)); reflexivity.
Qed.

(** C1. List, Download and Share each put [user_id = req.user.id] into
    the predicate of their one query on the File Registry; every row the
    query reads or updates is therefore owned by the caller, the answer
    is the one the caller's own rows alone would give, and Share leaves
    the rows of every other owner as they were. *)
Theorem owner_scoping (m : moment) (w : world) (user : claims)
    (fileId : Z) (proto h : string) :
  let own := with_files w (filter (owned_by user) (files w)) in
  let others := fun r => negb (owned_by user r) in
  (In (EqUserId (claim_id user)) (list_query user)
   /\ In (EqUserId (claim_id user)) (download_query user fileId)
   /\ In (EqUserId (claim_id user)) (share_query user fileId))
  /\ (Forall (fun r => owned_by user r = true)
             (select (list_query user) (files w))
      /\ Forall (fun r => owned_by user r = true)
                (select (download_query user fileId) (files w))
      /\ Forall (fun r => owned_by user r = true)
                (select (share_query user fileId) (files w)))
  /\ (list_files m w user = list_files m own user
      /\ download m w user fileId = download m own user fileId
      /\ fst (share JWT_SECRET m w user fileId proto h)
         = fst (share JWT_SECRET m own user fileId proto h))
  /\ filter others (files (snd (share JWT_SECRET m w user fileId proto h)))
     = filter others (files w).
Proof.
  intros own others.
  assert (Hl : In (EqUserId (claim_id user)) (list_query user))
    by (cbn; auto).
  assert (Hd : In (EqUserId (claim_id user)) (download_query user fileId))
    by (cbn; auto).
  assert (Hs : In (EqUserId (claim_id user)) (share_query user fileId))
    by (cbn; auto).
  repeat split; auto using select_scoped.
  - rewrite !list_cases. unfold own. cbn [files with_files].
    now rewrite select_only_own.
  - rewrite !download_cases. unfold own, existsSync.
    cbn [files disk with_files]. now rewrite select_only_own.
  - now rewrite !share_response.
  - rewrite share_effect. destruct (store m); try reflexivity.
    cbn [files with_files]. unfold others.
    now apply update_keeps_others.
Qed.

(** C2. With the store answering and file ids unique, Download by a
    caller who does not own the file, and Download of an id no row has,
    are both answered 500 'Error al buscar archivo' with the client
    library's 'no rows' message in [details]: [.single()] reports an
    error when no row matches, so the handler's [if (error)] branch
    answers before its [!file] branch with the 404 can.  The owner gets
    the stored object when it is on disk, and 404 'Archivo físico no
    encontrado' when it is not. *)
Theorem download_not_found_answers_500 (m : moment) (w : world)
    (f : file_row) :
  store m = Healthy ->
  NoDup (map file_id (files w)) ->
  In f (files w) ->
  (forall user uid, claim_id user = Some uid -> uid <> user_id f ->
     download m w user (file_id f)
     = Json 500 (Err "Error al buscar archivo" (Some no_single_row)))
  /\ (forall user uid fileId,
        claim_id user = Some uid -> ~ In fileId (map file_id (files w)) ->
        download m w user fileId
        = Json 500 (Err "Error al buscar archivo" (Some no_single_row)))
  /\ (forall user, claim_id user = Some (user_id f) ->
        download m w user (file_id f)
        = if existsSync w (file_path f)
          then SendFile (file_path f) (original_name f)
          else Json 404 (Err "Archivo físico no encontrado" None)).
Proof.
  intros Hstore Hnd Hin. repeat split.
  - intros user uid Hid Hother. rewrite download_cases, Hstore.
    unfold download_query, rejected. cbn [existsb undefined_value].
    rewrite Hid. cbn [orb]. rewrite (select_id_unique _ _ f Hnd Hin).
    cbn [matches forallb holds eq_int].
    destruct (Z.eqb_spec uid (user_id f)) as [Heq|_]; [now elim Hother|].
    reflexivity.
  - intros user uid fileId Hid Hout. rewrite download_cases, Hstore.
    unfold download_query, rejected. cbn [existsb undefined_value].
    rewrite Hid. cbn [orb]. now rewrite select_id_absent.
  - intros user Hown. rewrite download_cases, Hstore.
    unfold download_query, rejected. cbn [existsb undefined_value].
    rewrite Hown. cbn [orb]. rewrite (select_id_unique _ _ f Hnd Hin).
    cbn [matches forallb holds eq_int]. rewrite Z.eqb_refl. reflexivity.
Qed.

End Properties.

Lemma download_not_found_answers_500_witness :
  download (Sample.at_ 1700000300) Sample.w0 Sample.as_bob 7
  = Json 500 (Err "Error al buscar archivo"
                (Some "JSON object requested, multiple (or no) rows returned"))
  /\ download (Sample.at_ 1700000300) Sample.w0 Sample.as_alice 8
     = Json 500 (Err "Error al buscar archivo"
                   (Some "JSON object requested, multiple (or no) rows returned"))
  /\ download (Sample.at_ 1700000300) Sample.w0 Sample.as_alice 7
     = SendFile "/srv/uploads/1/1700000000-42-notes.txt" "notes.txt".
Proof.
  destruct (download_not_found_answers_500 (Sample.at_ 1700000300) Sample.w0
              Sample.notes) as (Hother & Habsent & Hown).
  - reflexivity.
  - cbn. repeat constructor; cbn; intuition discriminate.
  - cbn. auto.
  - split; [|split].
    + apply (Hother Sample.as_bob 2%Z); [reflexivity|discriminate].
    + apply (Habsent Sample.as_alice 1%Z 8%Z); [reflexivity|].
      cbn. intuition discriminate.
    + apply (Hown Sample.as_alice). reflexivity.
Defined.

(* ------------------------------------------------------------------ *)
(** ** Updates by primary key *)

Lemma update_ids q g rows :
  (forall r, file_id (g r) = file_id r) ->
  map file_id (update q g rows) = map file_id rows.
Proof.
  intros Hg. unfold update. induction rows as [|r rows IH]; [reflexivity|].
  cbn [map]. rewrite IH. destruct (matches q r); now rewrite ?Hg.
Qed.

Lemma update_In q g rows f :
  In f rows -> matches q f = true -> In (g f) (update q g rows).
Proof.
  intros Hin Hm. unfold update.
  apply in_map_iff. exists f. now rewrite Hm.
Qed.

Lemma find_update_hit q g rows f :
  (forall r, file_id (g r) = file_id r) ->
  NoDup (map file_id rows) -> In f rows -> matches q f = true ->
  find_file (file_id f) (update q g rows) = Some (g f).
Proof.
  intros Hg. unfold find_file, update.
  induction rows as [|r rows IH]; intros Hnd Hin Hm; [contradiction|].
  cbn [map] in Hnd. inversion Hnd as [|x xs Hout Hnd']; subst.
  cbn [map find]. destruct Hin as [->|Hin].
  - rewrite Hm, Hg, Z.eqb_refl. reflexivity.
  - assert (Hid : file_id (if matches q r then g r else r) = file_id r)
      by (destruct (matches q r); now rewrite ?Hg).
    rewrite Hid.
    destruct (Z.eqb_spec (file_id r) (file_id f)) as [Heq|Hne].
    + exfalso. apply Hout. rewrite Heq. now apply in_map.
    + now apply IH.
Qed.

Lemma find_update_miss q g rows fileId id :
  (forall r, file_id (g r) = file_id r) ->
  id <> fileId ->
  find_file id (update (EqId (Some fileId) :: q) g rows) = find_file id rows.
Proof.
  intros Hg Hne. unfold find_file, update.
  induction rows as [|r rows IH]; [reflexivity|].
  cbn [map find matches forallb holds eq_int].
  destruct (Z.eqb_spec fileId (file_id r)) as [Heq|Hother]; cbn [andb].
  - assert (Hid : file_id (if forallb (fun c => holds c r) q then g r else r)
                  = file_id r)
      by (destruct (forallb _ q); now rewrite ?Hg).
    rewrite Hid.
    destruct (Z.eqb_spec (file_id r) id) as [Hhit|_]; [congruence|].
    exact IH.
  - destruct (Z.eqb_spec (file_id r) id); [reflexivity|]. exact IH.
Qed.

Lemma filter_name_absent name rows :
  ~ In name (map user_name rows) ->
  filter (fun u => String.eqb (user_name u) name) rows = [].
Proof.
  induction rows as [|r rows IH]; intros Hout; [reflexivity|].
  cbn [filter]. cbn [map In] in Hout.
  destruct (String.eqb_spec (user_name r) name) as [Heq|Hne].
  - exfalso. apply Hout. now left.
  - apply IH. intros Hin. apply Hout. now right.
Qed.

Lemma filter_name_unique rows u :
  NoDup (map user_name rows) -> In u rows ->
  filter (fun x => String.eqb (user_name x) (user_name u)) rows = [u].
Proof.
  induction rows as [|r rows IH]; intros Hnd Hin; [contradiction|].
  cbn [map] in Hnd. inversion Hnd as [|x xs Hout Hnd']; subst.
  cbn [filter]. destruct Hin as [->|Hin].
  - rewrite String.eqb_refl. now rewrite filter_name_absent.
  - destruct (String.eqb_spec (user_name r) (user_name u)) as [Heq|Hne].
    + exfalso. apply Hout. rewrite Heq. now apply in_map.
    + now apply IH.
Qed.

Lemma set_shared_id tok r : file_id (set_shared tok r) = file_id r.
Proof. reflexivity. Qed.

Lemma set_shared_owner tok r : user_id (set_shared tok r) = user_id r.
Proof. reflexivity. Qed.

Lemma verify_signed p secret ttl t0 t :
  (t < t0 + ttl)%N -> jwt_verify (jwt_sign p secret ttl t0) secret t = inr p.
Proof.
  intros Hlt. unfold jwt_verify, jwt_sign. cbn [key exp payload].
  destruct (string_dec secret secret) as [_|Hne]; [|now elim Hne].
  apply N.ltb_lt in Hlt. now rewrite Hlt.
Qed.

Lemma verify_expired p secret ttl t0 t :
  (t0 + ttl <= t)%N ->
  jwt_verify (jwt_sign p secret ttl t0) secret t = inl TokenExpired.
Proof.
  intros Hle. unfold jwt_verify, jwt_sign. cbn [key exp payload].
  destruct (string_dec secret secret) as [_|Hne]; [|now elim Hne].
  apply N.ltb_ge in Hle. now rewrite Hle.
Qed.

Lemma sign_injective_time p secret ttl t1 t2 :
  jwt_sign p secret ttl t1 = jwt_sign p secret ttl t2 -> t1 = t2.
Proof. unfold jwt_sign. intros H. now inversion H. Qed.

(* ------------------------------------------------------------------ *)
(** ** Sharing and redeeming *)

Section Sharing.

Variable JWT_SECRET : string.

Lemma shared_cases m w token :
  shared JWT_SECRET m w token =
  match jwt_verify token JWT_SECRET (now m) with
  | inl e =>
      Json 500 (Err "Token inválido o error interno" (Some (jwt_message e)))
  | inr decoded =>
      match store m with
      | Healthy =>
          if rejected (shared_query decoded token)
          then Json 500 (Err "Error al obtener archivo compartido"
                           (Some invalid_integer))
          else
            match select (shared_query decoded token) (files w) with
            | [file] =>
                if existsSync w (file_path file)
                then SendFile (file_path file) (original_name file)
                else Json 404 (Err "Archivo físico no encontrado" None)
            | _ => Json 500 (Err "Error al obtener archivo compartido"
                               (Some no_single_row))
            end
      | Reports msg =>
          Json 500 (Err "Error al obtener archivo compartido" (Some msg))
      | Throws msg =>
          Json 500 (Err "Token inválido o error interno" (Some msg))
      end
  end.
Proof.
  unfold shared, answer, checked.
  destruct (jwt_verify _ _ _) as [e|decoded]; [reflexivity|].
  destruct (store m); try reflexivity.
  destruct (rejected (shared_query decoded token)); [reflexivity|].
  destruct (select (shared_query decoded token) (files w)) as [|file [|]];
    cbn; try reflexivity.
  destruct (existsSync w (file_path file)); reflexivity.
Qed.

Lemma shared_query_accepted decoded token id :
  claim_fileId decoded = Some id ->
  rejected (shared_query decoded token) = false.
Proof. intros H. unfold shared_query, rejected. cbn. now rewrite H. Qed.

(** What one Share by the owner does to a healthy registry. *)
Lemma share_owner_step m w f user proto h :
  store m = Healthy ->
  NoDup (map file_id (files w)) ->
  In f (files w) ->
  claim_id user = Some (user_id f) ->
  let shareToken := mint_share JWT_SECRET m (file_id f) in
  let after := snd (share JWT_SECRET m w user (file_id f) proto h) in
  fst (share JWT_SECRET m w user (file_id f) proto h)
  = Json 404 (Err "Archivo no encontrado" None)
  /\ after = with_files w (update (share_query user (file_id f))
                                  (set_shared shareToken) (files w))
  /\ NoDup (map file_id (files after))
  /\ In (set_shared shareToken f) (files after)
  /\ find_file (file_id f) (files after) = Some (set_shared shareToken f).
Proof.
  intros Hstore Hnd Hin Hown shareToken after.
  assert (Hm : matches (share_query user (file_id f)) f = true).
  { unfold share_query. cbn [matches forallb holds]. rewrite Hown.
    cbn [eq_int]. now rewrite !Z.eqb_refl. }
  assert (Hafter : after = with_files w
                     (update (share_query user (file_id f))
                             (set_shared shareToken) (files w))).
  { unfold after. now rewrite share_effect, Hstore. }
  split; [|split; [exact Hafter|]].
  - rewrite share_response, Hstore. unfold share_query, rejected.
    cbn [existsb undefined_value]. now rewrite Hown.
  - rewrite Hafter. cbn [files with_files]. repeat split.
    + rewrite update_ids; [exact Hnd | apply set_shared_id].
    + now apply update_In.
    + apply find_update_hit; auto using set_shared_id.
Qed.

(** Redeeming the token a shared row currently stores. *)
Lemma redeem_current m w g token decoded :
  store m = Healthy ->
  NoDup (map file_id (files w)) ->
  In g (files w) ->
  jwt_verify token JWT_SECRET (now m) = inr decoded ->
  claim_fileId decoded = Some (file_id g) ->
  is_shared g = true ->
  share_token g = Some token ->
  shared JWT_SECRET m w token
  = if existsSync w (file_path g)
    then SendFile (file_path g) (original_name g)
    else Json 404 (Err "Archivo físico no encontrado" None).
Proof.
  intros Hstore Hnd Hin Hv Hid Hsh Htok.
  rewrite shared_cases, Hv, Hstore.
  rewrite (shared_query_accepted _ _ _ Hid).
  unfold shared_query. rewrite Hid.
  rewrite (select_id_unique _ _ g Hnd Hin).
  cbn [matches forallb holds]. rewrite Hsh, Htok.
  destruct (text_eq_dec token token) as [_|Hne]; [|now elim Hne].
  reflexivity.
Qed.

(** Redeeming a token that names a row which stores another one. *)
Lemma redeem_stale m w g token decoded :
  store m = Healthy ->
  NoDup (map file_id (files w)) ->
  In g (files w) ->
  jwt_verify token JWT_SECRET (now m) = inr decoded ->
  claim_fileId decoded = Some (file_id g) ->
  share_token g <> Some token ->
  shared JWT_SECRET m w token
  = Json 500 (Err "Error al obtener archivo compartido" (Some no_single_row)).
Proof.
  intros Hstore Hnd Hin Hv Hid Htok.
  rewrite shared_cases, Hv, Hstore.
  rewrite (shared_query_accepted _ _ _ Hid).
  unfold shared_query. rewrite Hid.
  rewrite (select_id_unique _ _ g Hnd Hin).
  cbn [matches forallb holds].
  destruct (share_token g) as [s|]; [|now rewrite andb_false_r].
  destruct (text_eq_dec s token) as [->|Hne]; [now elim Htok|].
  now rewrite andb_false_r.
Qed.

(** A redemption that sends a file found a shared row storing exactly
    the presented, verified token. *)
Lemma redeem_only_if m w token path name :
  shared JWT_SECRET m w token = SendFile path name ->
  exists decoded file,
    jwt_verify token JWT_SECRET (now m) = inr decoded
    /\ In file (files w)
    /\ claim_fileId decoded = Some (file_id file)
    /\ is_shared file = true
    /\ share_token file = Some token
    /\ path = file_path file /\ name = original_name file.
Proof.
  rewrite shared_cases.
  destruct (jwt_verify token JWT_SECRET (now m)) as [e|decoded];
    [discriminate|].
  destruct (store m); try discriminate.
  destruct (rejected (shared_query decoded token)); [discriminate|].
  destruct (select (shared_query decoded token) (files w))
    as [|file [|]] eqn:Hsel; try discriminate.
  destruct (existsSync w (file_path file)); [|discriminate].
  intros H. inversion H; subst. exists decoded, file.
  assert (Hin : In file (select (shared_query decoded token) (files w)))
    by (rewrite Hsel; now left).
  apply select_In in Hin. destruct Hin as [Hin Hm].
  unfold shared_query in Hm. cbn [matches forallb holds] in Hm.
  apply andb_prop in Hm. destruct Hm as [H1 Hm].
  apply andb_prop in Hm. destruct Hm as [H2 Hm].
  apply andb_prop in Hm. destruct Hm as [H3 _].
  repeat split; auto.
  - destruct (claim_fileId decoded) as [n|]; cbn [eq_int] in H1;
      [|discriminate].
    apply Z.eqb_eq in H1. now subst.
  - now apply Bool.eqb_prop in H2.
  - destruct (share_token file) as [s|]; [|discriminate].
    destruct (text_eq_dec s token); [now subst|discriminate].
Qed.

(** Share writes the flag and the token in one update, so rows that had
    them in step still have. *)
Lemma share_keeps_sharing_consistent m w user fileId proto h :
  Forall sharing_consistent (files w) ->
  Forall sharing_consistent
         (files (snd (share JWT_SECRET m w user fileId proto h))).
Proof.
  intros Hall. rewrite share_effect.
  destruct (store m); try exact Hall.
  cbn [files with_files]. unfold update.
  apply Forall_forall. intros r Hr. apply in_map_iff in Hr.
  destruct Hr as (r0 & <- & Hin).
  destruct (matches _ r0).
  - unfold sharing_consistent. cbn. split; [discriminate|reflexivity].
  - rewrite Forall_forall in Hall. now apply Hall.
Qed.

(** C7.  With the store answering and file ids unique, Share by the
    owner writes the row (in one update [is_shared] becomes true and
    [share_token] the freshly signed seven-day [{fileId}] token, whatever
    the row held, no other row changing) and then answers 404 'Archivo no
    encontrado' without the URL: the update is sent without [.select()],
    so its [data] is null and the handler takes [!data] for no row.  The
    token it stored redeems all the same: until it expires, RedeemShare
    sends the stored object (or answers 404 'Archivo físico no
    encontrado' when the object is gone). *)
Theorem share_by_owner_answers_404 (m : moment) (w : world) (f : file_row)
    (user : claims) (proto h : string) :
  store m = Healthy ->
  NoDup (map file_id (files w)) ->
  In f (files w) ->
  claim_id user = Some (user_id f) ->
  let shareToken := mint_share JWT_SECRET m (file_id f) in
  let after := snd (share JWT_SECRET m w user (file_id f) proto h) in
  fst (share JWT_SECRET m w user (file_id f) proto h)
  = Json 404 (Err "Archivo no encontrado" None)
  /\ shareToken
     = [Tok {| payload := {| claim_id := None; claim_username := None;
                             claim_fileId := Some (file_id f) |};
               iat := now m; exp := (now m + 604800)%N;
               key := JWT_SECRET |}]
  /\ find_file (file_id f) (files after)
     = Some {| file_id := file_id f; user_id := user_id f;
               filename := filename f; original_name := original_name f;
               file_path := file_path f; file_size := file_size f;
               mime_type := mime_type f; is_shared := true;
               share_token := Some shareToken;
               uploaded_at := uploaded_at f |}
  /\ (forall id, id <> file_id f ->
        find_file id (files after) = find_file id (files w))
  /\ users after = users w
  /\ disk after = disk w
  /\ (forall m', store m' = Healthy -> (now m' < now m + 604800)%N ->
        shared JWT_SECRET m' after shareToken
        = if existsSync w (file_path f)
          then SendFile (file_path f) (original_name f)
          else Json 404 (Err "Archivo físico no encontrado" None)).
Proof.
  intros Hstore Hnd Hin Hown shareToken after.
  destruct (share_owner_step m w f user proto h Hstore Hnd Hin Hown)
    as (Hres & Hafter & Hnd' & Hin' & Hfind).
  fold shareToken in Hres, Hafter, Hfind, Hin'.
  fold after in Hafter, Hfind, Hnd', Hin'.
  repeat split.
  - exact Hres.
  - exact Hfind.
  - intros id Hne. rewrite Hafter. cbn [files with_files].
    unfold share_query. apply find_update_miss; auto using set_shared_id.
  - now rewrite Hafter.
  - now rewrite Hafter.
  - intros m' Hstore' Hlive.
    rewrite (redeem_current m' after (set_shared shareToken f) shareToken
               (share_claims (file_id f))); auto.
    + unfold existsSync. now rewrite Hafter.
    + apply (verify_signed _ _ share_ttl). exact Hlive.
Qed.

(** C3, as the code has it.  With the store answering and file ids
    unique: the owner's first Share stores the token it mints and the
    second Share replaces it with its own.  Redeeming the second token
    sends the stored object until the token expires (404 'Archivo físico
    no encontrado' when the object is gone) and is answered 500 'jwt
    expired' afterwards.  When the two calls fall in different clock
    seconds the tokens differ and redeeming the first never sends the
    file: it is answered 500, with the 'no rows' message while the first
    token is unexpired and with 'jwt expired' afterwards.  When the two
    calls fall in the same clock second the two tokens are one and the
    same, and the first redeems as the second does.  In every state, a
    redemption that sends a file has verified the token's signature and
    expiry and found a row with the decoded id, [is_shared = true] and a
    stored token equal to the presented one. *)
Theorem share_rotation (m1 m2 m3 : moment) (w : world) (f : file_row)
    (user : claims) (proto h : string) :
  store m1 = Healthy -> store m2 = Healthy -> store m3 = Healthy ->
  NoDup (map file_id (files w)) ->
  In f (files w) ->
  claim_id user = Some (user_id f) ->
  let firstToken := mint_share JWT_SECRET m1 (file_id f) in
  let secondToken := mint_share JWT_SECRET m2 (file_id f) in
  let w1 := snd (share JWT_SECRET m1 w user (file_id f) proto h) in
  let w2 := snd (share JWT_SECRET m2 w1 user (file_id f) proto h) in
  let expired :=
    Json 500 (Err "Token inválido o error interno" (Some "jwt expired")) in
  find_file (file_id f) (files w1) = Some (set_shared firstToken f)
  /\ find_file (file_id f) (files w2) = Some (set_shared secondToken f)
  /\ shared JWT_SECRET m3 w2 secondToken
     = (if (now m3 <? now m2 + share_ttl)%N
        then if existsSync w (file_path f)
             then SendFile (file_path f) (original_name f)
             else Json 404 (Err "Archivo físico no encontrado" None)
        else expired)
  /\ (now m1 <> now m2 ->
      firstToken <> secondToken
      /\ shared JWT_SECRET m3 w2 firstToken
         = (if (now m3 <? now m1 + share_ttl)%N
            then Json 500 (Err "Error al obtener archivo compartido"
                             (Some no_single_row))
            else expired))
  /\ (now m1 = now m2 ->
      firstToken = secondToken
      /\ shared JWT_SECRET m3 w2 firstToken
         = shared JWT_SECRET m3 w2 secondToken)
  /\ (forall m' w' token path name,
        shared JWT_SECRET m' w' token = SendFile path name ->
        exists decoded file,
          jwt_verify token JWT_SECRET (now m') = inr decoded
          /\ In file (files w')
          /\ claim_fileId decoded = Some (file_id file)
          /\ is_shared file = true
          /\ share_token file = Some token
          /\ path = file_path file /\ name = original_name file).
Proof.
  intros H1 H2 H3 Hnd Hin Hown firstToken secondToken w1 w2 expired.
  destruct (share_owner_step m1 w f user proto h H1 Hnd Hin Hown)
    as (_ & Hw1 & Hnd1 & Hin1 & Hfind1).
  fold firstToken in Hw1, Hin1, Hfind1. fold w1 in Hw1, Hnd1, Hin1, Hfind1.
  destruct (share_owner_step m2 w1 (set_shared firstToken f) user proto h
              H2 Hnd1 Hin1 Hown)
    as (_ & Hw2 & Hnd2 & Hin2 & Hfind2).
  cbn [file_id set_shared] in Hw2, Hin2, Hfind2.
  fold secondToken in Hw2, Hin2, Hfind2. fold w2 in Hw2, Hnd2, Hin2, Hfind2.
  assert (Hdisk2 : disk w2 = disk w) by (rewrite Hw2, Hw1; reflexivity).
  set (g := set_shared secondToken (set_shared firstToken f)) in *.
  split; [exact Hfind1|]. split; [exact Hfind2|].
  split; [|split; [|split]].
  - destruct (N.ltb_spec (now m3) (now m2 + share_ttl)) as [Hlt|Hge].
    + rewrite (redeem_current m3 w2 g secondToken (share_claims (file_id f)));
        auto.
      * unfold existsSync. now rewrite Hdisk2.
      * now apply verify_signed.
    + rewrite shared_cases. unfold secondToken, mint_share.
      now rewrite verify_expired.
  - intros Hclock.
    assert (Hdiff : firstToken <> secondToken).
    { intros Heq. apply sign_injective_time in Heq. now apply Hclock. }
    split; [exact Hdiff|].
    destruct (N.ltb_spec (now m3) (now m1 + share_ttl)) as [Hlt|Hge].
    + apply (redeem_stale m3 w2 g firstToken (share_claims (file_id f)));
        auto.
      * now apply verify_signed.
      * cbn [g share_token set_shared]. intros Heq.
        apply Hdiff. congruence.
    + rewrite shared_cases. unfold firstToken, mint_share.
      now rewrite verify_expired.
  - intros Hclock.
    assert (Hsame : firstToken = secondToken)
      by (unfold firstToken, secondToken, mint_share; now rewrite Hclock).
    split; [exact Hsame|]. now rewrite Hsame.
  - intros m' w' token path name. apply redeem_only_if.
Qed.

End Sharing.

Lemma share_by_owner_answers_404_witness :
  fst Sample.first_share = Json 404 (Err "Archivo no encontrado" None)
  /\ find_file 7 (files (snd Sample.first_share))
     = Some (set_shared Sample.first_token Sample.notes)
  /\ find_file 9 (files (snd Sample.first_share)) = Some Sample.report.
Proof.
  destruct (share_by_owner_answers_404 Sample.secret (Sample.at_ 1700000300)
              Sample.w0 Sample.notes Sample.as_alice "https"
              "files.example.org")
    as (Hres & _ & Hrow & Hrest & _).
  - reflexivity.
  - cbn. repeat constructor; cbn; intuition discriminate.
  - cbn. auto.
  - reflexivity.
  - split; [exact Hres|]. split; [exact Hrow|].
    transitivity (find_file 9 (files Sample.w0));
      [apply (Hrest 9%Z); discriminate | reflexivity].
Defined.

(** Two Share calls within one clock second sign the same claims with the
    same timestamps, so the first token is also the second: it is the one
    the row stores after the second call, and it redeems. *)
Lemma reshare_within_a_second_keeps_first_token :
  find_file 7 (files (snd Sample.first_share))
  = Some (set_shared Sample.first_token Sample.notes)
  /\ find_file 7 (files (snd (Sample.share_again 1700000300)))
     = Some (set_shared (mint_share Sample.secret (Sample.at_ 1700000300) 7)
                        Sample.notes)
  /\ shared Sample.secret (Sample.at_ 1700000301)
            (snd (Sample.share_again 1700000300)) Sample.first_token
     = SendFile "/srv/uploads/1/1700000000-42-notes.txt" "notes.txt".
Proof. vm_compute. repeat split. Qed.

Lemma share_rotation_witness :
  shared Sample.secret (Sample.at_ 1700000400)
         (snd (Sample.share_again 1700000360)) Sample.first_token
  = Json 500 (Err "Error al obtener archivo compartido"
                (Some "JSON object requested, multiple (or no) rows returned"))
  /\ shared Sample.secret (Sample.at_ 1700000400)
            (snd (Sample.share_again 1700000360))
            (mint_share Sample.secret (Sample.at_ 1700000360) 7)
     = SendFile "/srv/uploads/1/1700000000-42-notes.txt" "notes.txt"
  /\ shared Sample.secret (Sample.at_ 1700000400)
            (snd (Sample.share_again 1700000300)) Sample.first_token
     = shared Sample.secret (Sample.at_ 1700000400)
              (snd (Sample.share_again 1700000300))
              (mint_share Sample.secret (Sample.at_ 1700000300) 7).
Proof.
  split; [|split].
  - destruct (share_rotation Sample.secret (Sample.at_ 1700000300)
                (Sample.at_ 1700000360) (Sample.at_ 1700000400) Sample.w0
                Sample.notes Sample.as_alice "https" "files.example.org")
      as (_ & _ & _ & Hdiff & _).
    + reflexivity.
    + reflexivity.
    + reflexivity.
    + cbn. repeat constructor; cbn; intuition discriminate.
    + cbn. auto.
    + reflexivity.
    + destruct Hdiff as (_ & Hfirst); [cbn; discriminate|exact Hfirst].
  - destruct (share_rotation Sample.secret (Sample.at_ 1700000300)
                (Sample.at_ 1700000360) (Sample.at_ 1700000400) Sample.w0
                Sample.notes Sample.as_alice "https" "files.example.org")
      as (_ & _ & Hsecond & _).
    + reflexivity.
    + reflexivity.
    + reflexivity.
    + cbn. repeat constructor; cbn; intuition discriminate.
    + cbn. auto.
    + reflexivity.
    + exact Hsecond.
  - destruct (share_rotation Sample.secret (Sample.at_ 1700000300)
                (Sample.at_ 1700000300) (Sample.at_ 1700000400) Sample.w0
                Sample.notes Sample.as_alice "https" "files.example.org")
      as (_ & _ & _ & _ & Hsame & _).
    + reflexivity.
    + reflexivity.
    + reflexivity.
    + cbn. repeat constructor; cbn; intuition discriminate.
    + cbn. auto.
    + reflexivity.
    + destruct Hsame as (_ & Hfirst); [reflexivity|exact Hfirst].
Defined.

(* ------------------------------------------------------------------ *)
(** ** Login *)

Section Login.

Variable JWT_SECRET : string.
Variable bcrypt_compare : string -> string -> bool.

(** C5. With the store answering and usernames unique, a login that
    names an existing user with a password that does not verify is
    answered 401 'Credenciales inválidas', while a login that names no
    user is answered 500 'Error interno del servidor' with the client
    library's 'no rows' message in [details]: [.single()] reports an
    error when no row matches, so the handler's [if (error)] branch
    answers before its [!data] branch with the 401 can.  The two answers
    differ. *)
Theorem login_unknown_user_answers_500 (m : moment) (w : world)
    (u : user_row) (wrong absent : request) :
  store m = Healthy ->
  NoDup (map user_name (users w)) ->
  In u (users w) ->
  truthy (body_username wrong) = true ->
  truthy (body_password wrong) = true ->
  str (body_username wrong) = user_name u ->
  bcrypt_compare (str (body_password wrong)) (user_password u) = false ->
  truthy (body_username absent) = true ->
  truthy (body_password absent) = true ->
  ~ In (str (body_username absent)) (map user_name (users w)) ->
  login JWT_SECRET bcrypt_compare m w wrong
  = Json 401 (Err "Credenciales inválidas" None)
  /\ login JWT_SECRET bcrypt_compare m w absent
     = Json 500 (Err "Error interno del servidor" (Some no_single_row))
  /\ login JWT_SECRET bcrypt_compare m w wrong
     <> login JWT_SECRET bcrypt_compare m w absent.
Proof.
  intros Hstore Hnd Hin Hu Hp Hname Hbad Hu' Hp' Hout.
  assert (Hw : login JWT_SECRET bcrypt_compare m w wrong
               = Json 401 (Err "Credenciales inválidas" None)).
  { unfold login. rewrite Hu, Hp, Hstore, Hname. cbn [negb orb answer].
    rewrite (filter_name_unique _ u Hnd Hin). cbn. now rewrite Hbad. }
  assert (Ha : login JWT_SECRET bcrypt_compare m w absent
               = Json 500 (Err "Error interno del servidor"
                             (Some no_single_row))).
  { unfold login. rewrite Hu', Hp', Hstore. cbn [negb orb answer].
    now rewrite (filter_name_absent _ _ Hout). }
  split; [exact Hw|]. split; [exact Ha|].
  rewrite Hw, Ha. discriminate.
Qed.

End Login.

Lemma login_unknown_user_answers_500_witness :
  login Sample.secret Sample.compare (Sample.at_ 1700000300) Sample.w0
        (Sample.post_login "alice" "letmein")
  = Json 401 (Err "Credenciales inválidas" None)
  /\ login Sample.secret Sample.compare (Sample.at_ 1700000300) Sample.w0
           (Sample.post_login "mallory" "letmein")
     = Json 500 (Err "Error interno del servidor"
                   (Some "JSON object requested, multiple (or no) rows returned")).
Proof.
  destruct (login_unknown_user_answers_500 Sample.secret Sample.compare
              (Sample.at_ 1700000300) Sample.w0 Sample.alice
              (Sample.post_login "alice" "letmein")
              (Sample.post_login "mallory" "letmein"))
    as (Hwrong & Habsent & _).
  - reflexivity.
  - cbn. repeat constructor; cbn; intuition discriminate.
  - cbn. auto.
  - reflexivity.
  - reflexivity.
  - reflexivity.
  - reflexivity.
  - reflexivity.
  - reflexivity.
  - cbn. intuition discriminate.
  - split; [exact Hwrong | exact Habsent].
Defined.

(* ------------------------------------------------------------------ *)
(** ** The bearer token of a request *)

Lemma split_bearer (x : text) :
  split_space (plain "Bearer " ++ x) = plain "Bearer" :: split_space x.
Proof.
  cbn. destruct (split_space x) eqn:Hx; reflexivity.
Qed.

Lemma bearer_of (x : text) :
  bearer (Some (plain "Bearer " ++ x)) = hd_error (split_space x).
Proof.
  unfold bearer. change (plain "Bearer " ++ x)
    with (Chr "B" :: (plain "earer " ++ x)).
  change (Chr "B" :: (plain "earer " ++ x)) with (plain "Bearer " ++ x).
  rewrite split_bearer. destruct (split_space x); reflexivity.
Qed.

Lemma first_word_plain (s : string) :
  exists word words, split_space (plain s) = plain word :: words.
Proof.
  induction s as [|c s IH].
  - exists ""%string, []. reflexivity.
  - destruct IH as (word & words & IH).
    destruct (ascii_dec c " ") as [->|Hc].
    + exists ""%string, (split_space (plain s)). reflexivity.
    + exists (String c word), words.
      change (plain (String c s)) with (Chr c :: plain s).
      change (plain (String c word)) with (Chr c :: plain word).
      assert (Hstep : forall rest, split_space (Chr c :: rest) =
                match split_space rest with
                | w :: ws => (Chr c :: w) :: ws
                | [] => [[Chr c]]
                end).
      { intros rest.
        destruct c as [[] [] [] [] [] [] [] []];
          try reflexivity; now elim Hc. }
      now rewrite Hstep, IH.
Qed.

Lemma verify_plain (s secret : string) (t : N) :
  exists e, jwt_verify (plain s) secret t = inl e.
Proof.
  destruct s as [|c s]; [now exists JwtMissing|].
  exists JwtMalformed. cbn. destruct (plain s); reflexivity.
Qed.

Section Authentication.

Variable JWT_SECRET : string.

Lemma authenticate_signed m t :
  authenticateToken JWT_SECRET m (Some (plain "Bearer " ++ [Tok t])) =
  match jwt_verify [Tok t] JWT_SECRET (now m) with
  | inl _ => Respond forbidden
  | inr user => Next user
  end.
Proof. unfold authenticateToken. now rewrite bearer_of. Qed.

(** C8, as the code has it.  A request without a bearer token is
    answered 401 'Token de acceso requerido'; a request whose token does
    not verify, whether malformed, signed with another key or expired,
    is answered 403 'Token inválido', the same for all three; these are
    the only two answers of the middleware, and a token signed with the
    server's key and not yet expired is let through with its claims. *)
Theorem access_token_failures (m : moment) :
  authenticateToken JWT_SECRET m None = Respond unauthorized
  /\ authenticateToken JWT_SECRET m (Some (plain "Bearer"))
     = Respond unauthorized
  /\ (forall s, authenticateToken JWT_SECRET m
                  (Some (plain "Bearer " ++ plain s)) = Respond forbidden)
  /\ (forall t, key t <> JWT_SECRET ->
        authenticateToken JWT_SECRET m (Some (plain "Bearer " ++ [Tok t]))
        = Respond forbidden)
  /\ (forall t, (exp t <= now m)%N ->
        authenticateToken JWT_SECRET m (Some (plain "Bearer " ++ [Tok t]))
        = Respond forbidden)
  /\ (forall t, key t = JWT_SECRET -> (now m < exp t)%N ->
        authenticateToken JWT_SECRET m (Some (plain "Bearer " ++ [Tok t]))
        = Next (payload t))
  /\ (forall h r, authenticateToken JWT_SECRET m h = Respond r ->
        r = unauthorized \/ r = forbidden).
Proof.
  repeat split.
  - intros s. unfold authenticateToken. rewrite bearer_of.
    destruct (first_word_plain s) as (word & words & ->). cbn [hd_error].
    destruct (verify_plain word JWT_SECRET (now m)) as (e & ->).
    reflexivity.
  - intros t Hkey. rewrite authenticate_signed. unfold jwt_verify.
    destruct (string_dec (key t) JWT_SECRET); [contradiction|reflexivity].
  - intros t Hexp. rewrite authenticate_signed. unfold jwt_verify.
    apply N.ltb_ge in Hexp. rewrite Hexp.
    destruct (string_dec (key t) JWT_SECRET); reflexivity.
  - intros t Hkey Hlive. rewrite authenticate_signed. unfold jwt_verify.
    apply N.ltb_lt in Hlive. rewrite Hlive.
    destruct (string_dec (key t) JWT_SECRET); [reflexivity|contradiction].
  - intros h r. unfold authenticateToken.
    destruct (bearer h) as [token|]; [|intros H; inversion H; now left].
    destruct (jwt_verify token JWT_SECRET (now m));
      intros H; inversion H; now right.
Qed.


End Authentication.

Lemma access_token_failures_witness :
  authenticateToken Sample.secret (Sample.at_ 1700000300)
    (Sample.bearer_header (jwt_sign Sample.as_alice "another key" access_ttl
                                    1700000000))
  = Respond forbidden
  /\ authenticateToken Sample.secret (Sample.at_ 1700090000)
       (Sample.bearer_header Sample.access_token_of_alice)
     = Respond forbidden
  /\ authenticateToken Sample.secret (Sample.at_ 1700000400)
       (Sample.bearer_header Sample.access_token_of_alice)
     = Next Sample.as_alice.
Proof.
  split; [|split].
  - destruct (access_token_failures Sample.secret (Sample.at_ 1700000300))
      as (_ & _ & _ & Hkey & _).
    apply Hkey. cbn. discriminate.
  - destruct (access_token_failures Sample.secret (Sample.at_ 1700090000))
      as (_ & _ & _ & _ & Hexp & _).
    apply Hexp. cbn. discriminate.
  - destruct (access_token_failures Sample.secret (Sample.at_ 1700000400))
      as (_ & _ & _ & _ & _ & Hok & _).
    apply (Hok {| payload := Sample.as_alice; iat := 1700000300;
                  exp := 1700086700; key := Sample.secret |}).
    + reflexivity.
    + reflexivity.
Defined.

(** A request without a token and a request with a token that does not
    verify get different answers. *)
Lemma missing_and_invalid_token_differ :
  authenticateToken Sample.secret (Sample.at_ 1700000300) None
  = Respond (Json 401 (Err "Token de acceso requerido" None))
  /\ authenticateToken Sample.secret (Sample.at_ 1700000300)
       (Some (plain "Bearer not.a.token"))
     = Respond (Json 403 (Err "Token inválido" None))
  /\ authenticateToken Sample.secret (Sample.at_ 1700000300) None
     <> authenticateToken Sample.secret (Sample.at_ 1700000300)
          (Some (plain "Bearer not.a.token")).
Proof. repeat split. discriminate. Qed.



(* ------------------------------------------------------------------ *)
(** ** Failures of the store *)

Lemma with_users_same w : with_users w (users w) = w.
Proof. now destruct w. Qed.

Section StoreFailures.

Variable JWT_SECRET : string.
Variable bcrypt_hash : string -> string.
Variable bcrypt_compare : string -> string -> bool.

(** C9, as the code has it.  When the store reports an error to a
    handler, the response has status 500 and a fixed error text, and the
    store's own message is copied into its [details] field; this holds
    for List, Download, Share, RedeemShare, Login, Upload and Register,
    except that Register answers a message containing 'duplicate key
    value' with 400 'Usuario o email ya existe' and no details.  When
    the store call throws instead, the catch block answers with a fixed
    text and no details, except in RedeemShare, where the thrown message
    is again copied into [details]. *)
Theorem store_errors_reach_the_client (m m' : moment) (w : world)
    (msg : string) (user : claims) (fileId : Z) (proto h : string) :
  store m = Reports msg ->
  store m' = Throws msg ->
  (list_files m w user
   = Json 500 (Err "Error al obtener archivos" (Some msg))
   /\ download m w user fileId
      = Json 500 (Err "Error al buscar archivo" (Some msg))
   /\ share JWT_SECRET m w user fileId proto h
      = (Json 500 (Err "Error al compartir archivo" (Some msg)), w)
   /\ (forall token decoded,
         jwt_verify token JWT_SECRET (now m) = inr decoded ->
         shared JWT_SECRET m w token
         = Json 500 (Err "Error al obtener archivo compartido" (Some msg)))
   /\ (forall req,
         truthy (body_username req) = true ->
         truthy (body_password req) = true ->
         login JWT_SECRET bcrypt_compare m w req
         = Json 500 (Err "Error interno del servidor" (Some msg)))
   /\ (forall f,
         upload m w user (Some f)
         = (Json 500 (Err "Error al guardar archivo en base de datos"
                        (Some msg)), w))
   /\ (forall req,
         truthy (body_username req) = true ->
         truthy (body_password req) = true ->
         truthy (body_email req) = true ->
         register JWT_SECRET bcrypt_hash m w req
         = (if Js.includes msg "duplicate key value"
            then Json 400 (Err "Usuario o email ya existe" None)
            else Json 500 (Err "Error al crear usuario" (Some msg)), w)))
  /\ (list_files m' w user = Json 500 (Err "Error interno del servidor" None)
      /\ download m' w user fileId
         = Json 500 (Err "Error interno del servidor" None)
      /\ share JWT_SECRET m' w user fileId proto h
         = (Json 500 (Err "Error interno del servidor" None), w)
      /\ (forall token decoded,
            jwt_verify token JWT_SECRET (now m') = inr decoded ->
            shared JWT_SECRET m' w token
            = Json 500 (Err "Token inválido o error interno" (Some msg)))
      /\ (forall req,
            truthy (body_username req) = true ->
            truthy (body_password req) = true ->
            login JWT_SECRET bcrypt_compare m' w req
            = Json 500 (Err "Error interno del servidor" None))
      /\ (forall f,
            upload m' w user (Some f)
            = (Json 500 (Err "Error al subir archivo" None), w))
      /\ (forall req,
            truthy (body_username req) = true ->
            truthy (body_password req) = true ->
            truthy (body_email req) = true ->
            register JWT_SECRET bcrypt_hash m' w req
            = (Json 500 (Err "Error interno del servidor" None), w))).
Proof.
  intros Hrep Hthr. split.
  - split; [|split; [|split; [|split; [|split; [|split]]]]].
    + unfold list_files. now rewrite Hrep.
    + now rewrite download_cases, Hrep.
    + rewrite (surjective_pairing (share JWT_SECRET m w user fileId proto h)).
      now rewrite share_response, share_effect, Hrep.
    + intros token decoded Hv. now rewrite shared_cases, Hv, Hrep.
    + intros req Hu Hp. unfold login. now rewrite Hu, Hp, Hrep.
    + intros f. unfold upload, insert_file. rewrite Hrep. cbn.
      now rewrite with_files_same.
    + intros req Hu Hp He. unfold register, insert_user.
      rewrite Hu, Hp, He, Hrep. cbn. rewrite with_users_same.
      destruct (Js.includes msg "duplicate key value"); reflexivity.
  - split; [|split; [|split; [|split; [|split; [|split]]]]].
    + unfold list_files. now rewrite Hthr.
    + now rewrite download_cases, Hthr.
    + rewrite (surjective_pairing (share JWT_SECRET m' w user fileId proto h)).
      now rewrite share_response, share_effect, Hthr.
    + intros token decoded Hv. now rewrite shared_cases, Hv, Hthr.
    + intros req Hu Hp. unfold login. now rewrite Hu, Hp, Hthr.
    + intros f. unfold upload, insert_file. rewrite Hthr. cbn.
      now rewrite with_files_same.
    + intros req Hu Hp He. unfold register, insert_user.
      rewrite Hu, Hp, He, Hthr. cbn. now rewrite with_users_same.
Qed.

End StoreFailures.

Lemma store_errors_reach_the_client_witness :
  download (Sample.failing 1700000400 Sample.refused) Sample.w0
           Sample.as_alice 7
  = Json 500 (Err "Error al buscar archivo"
                (Some "connect ECONNREFUSED db.internal:5432"))
  /\ login Sample.secret Sample.compare
           (Sample.failing 1700000400 Sample.refused) Sample.w0
           (Sample.post_login "alice" "pw123456")
     = Json 500 (Err "Error interno del servidor"
                   (Some "connect ECONNREFUSED db.internal:5432")).
Proof.
  destruct (store_errors_reach_the_client Sample.secret Sample.hash
              Sample.compare (Sample.failing 1700000400 Sample.refused)
              {| now := 1700000400; store := Throws Sample.refused;
                 uniqueSuffix := "1700000200-99"; order := [] |}
              Sample.w0 Sample.refused Sample.as_alice 7 "https"
              "files.example.org")
    as ((_ & Hdown & _ & _ & Hlogin & _) & _).
  - reflexivity.
  - reflexivity.
  - split; [exact Hdown|]. apply Hlogin; reflexivity.
Defined.

(** The store's own message, word for word, in the body the owner's
    download request is answered with. *)
Lemma download_leaks_store_message :
  Sample.run (Sample.failing 1700000400 Sample.refused) Sample.w0
    (Sample.get (ApiFileDownload 7)
                (Sample.bearer_header Sample.access_token_of_alice))
  = (Json 500 (Err "Error al buscar archivo"
                 (Some "connect ECONNREFUSED db.internal:5432")), Sample.w0)
  /\ details_of
       (fst (Sample.run (Sample.failing 1700000400 Sample.refused) Sample.w0
               (Sample.get (ApiFileDownload 7)
                  (Sample.bearer_header Sample.access_token_of_alice))))
     = Some Sample.refused.
Proof. split; reflexivity. Qed.

(* ------------------------------------------------------------------ *)
(** ** Deleting and uploading *)

(** C6.  The request the client sends to delete a file, with the owner's
    valid token or any other, matches no route: the answer is the
    framework's 404 and neither the registry nor the disk changes.  The
    only deletion code, [deleteFile], is given a public id alone and,
    when the object store fails, logs the error and throws it again. *)
Theorem delete_request_not_served (JWT_SECRET uploadsDir : string)
    (bcrypt_hash : string -> string)
    (bcrypt_compare : string -> string -> bool)
    (m : moment) (w : world) (auth : option text) (fileId : Z)
    (proto h : string) :
  app JWT_SECRET uploadsDir bcrypt_hash bcrypt_compare m w
      (delete_request auth fileId proto h) = (NoRoute, w)
  /\ Sample.run (Sample.at_ 1700000400) Sample.w0
       (delete_request (Sample.bearer_header Sample.access_token_of_alice) 7
                       "https" "files.example.org")
     = (NoRoute, Sample.w0)
  /\ (forall c publicId msg,
        Cloudinary.deleteFile (Throws msg) c publicId
        = (Thrown msg, c, [("Error eliminando archivo: " ++ msg)%string])).
Proof. repeat split. Qed.

Lemma fileFilter_spec (f : upload_part) :
  fileFilter f = true <->
  (exists word, In word allowedTypes
                /\ Js.includes (mimetype f) word = true)
  /\ (exists word, In word allowedTypes
                   /\ Js.includes
                        (Js.toLowerCase (Js.extname (originalname f))) word
                      = true).
Proof.
  unfold fileFilter, Js.test.
  rewrite andb_true_iff, !existsb_exists. tauto.
Qed.

Lemma exe_rejected (f : upload_part) :
  Js.toLowerCase (Js.extname (originalname f)) = ".exe"%string ->
  fileFilter f = false.
Proof.
  intros Hext. unfold fileFilter. rewrite Hext.
  apply andb_false_r.
Qed.

(** C10.  The filter tests the declared mime type against the same
    unanchored list of words as the extension.  [notes.txt] declared as
    [text/plain] is refused ('Tipo de archivo no permitido'), as are
    [.doc] and [.xls] files with their usual mime types, while a [.docm]
    file, which is not on the list, is accepted; [.exe] is refused and a
    [.JPG] image is accepted. *)
Theorem upload_filter_refuses_text_plain :
  fileFilter Sample.notes_txt = false
  /\ fst (Sample.run (Sample.at_ 1700000400) Sample.w0
            (Sample.post_upload
               (Sample.bearer_header Sample.access_token_of_alice)
               Sample.notes_txt))
     = Unhandled "Tipo de archivo no permitido"
  /\ fileFilter Sample.letter_doc = false
  /\ fileFilter Sample.sheet_xls = false
  /\ fileFilter Sample.macro_docm = true
  /\ fileFilter Sample.setup_exe = false
  /\ fileFilter Sample.photo_jpg = true.
Proof. repeat split. Qed.

(* ------------------------------------------------------------------ *)
(** ** The model at work *)

Example extname_samples :
  Js.extname "notes.txt" = ".txt"%string
  /\ Js.extname "archive.tar.GZ" = ".GZ"%string
  /\ Js.extname ".bashrc" = ""%string
  /\ Js.extname "README" = ""%string
  /\ Js.extname "dir.d/file" = ""%string
  /\ Js.extname ".." = ""%string.
Proof. repeat split. Qed.

Example allowed_words_in_mime_types :
  Js.test allowedTypes "image/jpeg" = true
  /\ Js.test allowedTypes "application/pdf" = true
  /\ Js.test allowedTypes "text/plain" = false
  /\ Js.test allowedTypes "application/msword" = false.
Proof. repeat split. Qed.

Example bearer_samples :
  bearer None = None
  /\ bearer (Some (plain "Bearer")) = None
  /\ bearer (Some (plain "Bearer ")) = Some []
  /\ bearer (Some (plain "Bearer abc def")) = Some (plain "abc")
  /\ bearer (Some []) = Some [].
Proof. repeat split. Qed.

(** The registry row is there and the caller owns it, but the stored
    object is gone: the guard on [fs.existsSync] answers 404. *)
Example download_lost_object :
  download (Sample.at_ 1700000300) Sample.w_lost Sample.as_alice 7
  = Json 404 (Err "Archivo físico no encontrado" None).
Proof. reflexivity. Qed.

Example login_succeeds :
  login Sample.secret Sample.compare (Sample.at_ 1700000300) Sample.w0
        (Sample.post_login "alice" "pw123456")
  = Json 200 (Session "Login exitoso" Sample.access_token_of_alice
                {| pu_id := 1; pu_username := "alice";
                   pu_email := "a@x.com" |}).
Proof. reflexivity. Qed.

Example share_over_http :
  Sample.run (Sample.at_ 1700000300) Sample.w0
    (Sample.post_share 7 (Sample.bearer_header Sample.access_token_of_alice))
  = Sample.first_share.
Proof. reflexivity. Qed.

Example share_by_another_user :
  Sample.run (Sample.at_ 1700000300) Sample.w0
    (Sample.post_share 9 (Sample.bearer_header Sample.access_token_of_alice))
  = (Json 404 (Err "Archivo no encontrado" None), Sample.w0).
Proof. reflexivity. Qed.

(* ------------------------------------------------------------------ *)
(** ** Keys the store assigns *)

Lemma fold_max_bound (ids : list Z) (x : Z) :
  In x ids -> (x <= fold_right Z.max 0 ids)%Z.
Proof.
  induction ids as [|y ids IH]; intros Hin; [contradiction|].
  cbn [fold_right]. destruct Hin as [->|Hin]; [lia|].
  specialize (IH Hin). lia.
Qed.

Lemma fresh_id_new (ids : list Z) : ~ In (fresh_id ids) ids.
Proof.
  intros Hin. apply fold_max_bound in Hin. unfold fresh_id in Hin. lia.
Qed.

Lemma no_duplicate_none (rows : list user_row) (name mail : string) :
  existsb (fun r => String.eqb (user_name r) name
                    || String.eqb (user_email r) mail) rows = false ->
  ~ In name (map user_name rows) /\ ~ In mail (map user_email rows).
Proof.
  induction rows as [|r rows IH]; cbn [existsb map In]; intros H.
  - tauto.
  - apply orb_false_elim in H. destruct H as [Hr Hrest].
    apply orb_false_elim in Hr. destruct Hr as [Hn He].
    apply String.eqb_neq in Hn. apply String.eqb_neq in He.
    destruct (IH Hrest) as [IHn IHe]. split; intros [Heq|Hin]; tauto.
Qed.

Lemma NoDup_snoc {A} (l : list A) (x : A) :
  NoDup l -> ~ In x l -> NoDup (l ++ [x]).
Proof.
  intros Hnd Hout. induction Hnd as [|y l Hy Hnd IH]; cbn.
  - constructor; [tauto|constructor].
  - constructor.
    + rewrite in_app_iff. cbn. intros [H|[H|[]]]; [tauto|].
      subst. apply Hout. now left.
    + apply IH. intros H. apply Hout. now right.
Qed.

Lemma select_snoc q rows r :
  select q (rows ++ [r])
  = select q rows ++ (if matches q r then [r] else []).
Proof. unfold select. rewrite filter_app. reflexivity. Qed.

Lemma no_duplicate_none_back (rows : list user_row) (name mail : string) :
  ~ In name (map user_name rows) -> ~ In mail (map user_email rows) ->
  existsb (fun r => String.eqb (user_name r) name
                    || String.eqb (user_email r) mail) rows = false.
Proof.
  induction rows as [|r rows IH]; cbn [existsb map In]; intros Hn He.
  - reflexivity.
  - rewrite IH by tauto.
    destruct (String.eqb_spec (user_name r) name); [tauto|].
    destruct (String.eqb_spec (user_email r) mail); [tauto|].
    reflexivity.
Qed.

(* ------------------------------------------------------------------ *)
(** ** Registration and sessions *)

Section Registration.

Variable JWT_SECRET : string.
Variable bcrypt_hash : string -> string.
Variable bcrypt_compare : string -> string -> bool.

Lemma register_outcome m w req :
  register JWT_SECRET bcrypt_hash m w req =
  if negb (truthy (body_username req)) || negb (truthy (body_password req))
     || negb (truthy (body_email req))
  then (Json 400 (Err "Todos los campos son requeridos" None), w)
  else
    match store m with
    | Healthy =>
        if existsb (fun r => String.eqb (user_name r) (str (body_username req))
                             || String.eqb (user_email r) (str (body_email req)))
                   (users w)
        then (Json 400 (Err "Usuario o email ya existe" None), w)
        else
          let newUser :=
            {| user_pk := fresh_id (map user_pk (users w));
               user_name := str (body_username req);
               user_email := str (body_email req);
               user_password := bcrypt_hash (str (body_password req)) |} in
          (Json 201 (Session "Usuario creado exitosamente"
                       (access_token JWT_SECRET m newUser) (public newUser)),
           with_users w (users w ++ [newUser]))
    | Reports msg =>
        (if Js.includes msg "duplicate key value"
         then Json 400 (Err "Usuario o email ya existe" None)
         else Json 500 (Err "Error al crear usuario" (Some msg)), w)
    | Throws _ => (internal_error, w)
    end.
Proof.
  unfold register, insert_user.
  destruct (negb (truthy (body_username req)) || negb (truthy (body_password req))
            || negb (truthy (body_email req))); [reflexivity|].
  destruct (store m) as [|msg|msg]; cbn.
  - destruct (existsb _ (users w)); cbn; [now rewrite with_users_same|].
    reflexivity.
  - rewrite with_users_same.
    destruct (Js.includes msg "duplicate key value"); reflexivity.
  - now rewrite with_users_same.
Qed.

Lemma login_session m w req msg tok u :
  login JWT_SECRET bcrypt_compare m w req = Json 200 (Session msg tok u) ->
  exists row, tok = access_token JWT_SECRET m row /\ u = public row.
Proof.
  unfold login, answer.
  destruct (negb (truthy (body_username req)) || negb (truthy (body_password req)));
    [discriminate|].
  destruct (store m); try discriminate.
  destruct (filter _ (users w)) as [|row [|]]; cbn; try discriminate.
  destruct (negb (bcrypt_compare _ _)); [discriminate|].
  intros H. inversion H; subst. now exists row.
Qed.

Lemma register_session m w req msg tok u :
  fst (register JWT_SECRET bcrypt_hash m w req) = Json 201 (Session msg tok u) ->
  exists row, tok = access_token JWT_SECRET m row /\ u = public row.
Proof.
  rewrite register_outcome.
  destruct (negb (truthy (body_username req)) || negb (truthy (body_password req))
            || negb (truthy (body_email req))); [discriminate|].
  destruct (store m) as [|msg'|msg']; cbn.
  - destruct (existsb _ (users w)); cbn; [discriminate|].
    intros H. inversion H; subst. eexists. split; reflexivity.
  - destruct (Js.includes msg' "duplicate key value"); discriminate.
  - discriminate.
Qed.

(** Register answers 201 and appends exactly one user, whose password
    column holds the bcrypt hash, or it answers 400 or 500 and leaves
    users, files and disk exactly as they were. *)
Theorem register_all_or_nothing (m : moment) (w : world) (req : request) :
  (exists newUser,
     register JWT_SECRET bcrypt_hash m w req
     = (Json 201 (Session "Usuario creado exitosamente"
                    (access_token JWT_SECRET m newUser) (public newUser)),
        with_users w (users w ++ [newUser]))
     /\ user_name newUser = str (body_username req)
     /\ user_email newUser = str (body_email req)
     /\ user_password newUser = bcrypt_hash (str (body_password req))
     /\ ~ In (user_pk newUser) (map user_pk (users w))
     /\ ~ In (user_name newUser) (map user_name (users w))
     /\ ~ In (user_email newUser) (map user_email (users w)))
  \/ (exists status text details,
        register JWT_SECRET bcrypt_hash m w req
        = (Json status (Err text details), w)
        /\ (status = 400 \/ status = 500)).
Proof.
  rewrite register_outcome.
  destruct (negb (truthy (body_username req)) || negb (truthy (body_password req))
            || negb (truthy (body_email req))).
  { right. do 3 eexists. split; [reflexivity|now left]. }
  destruct (store m) as [|msg|msg].
  - destruct (existsb _ (users w)) eqn:Hdup.
    + right. do 3 eexists. split; [reflexivity|now left].
    + left. eexists. split; [reflexivity|]. cbn.
      apply no_duplicate_none in Hdup. destruct Hdup as [Hn He].
      repeat split; auto. apply fresh_id_new.
  - right. destruct (Js.includes msg "duplicate key value");
      do 3 eexists; (split; [reflexivity|]); [now left|now right].
  - right. do 3 eexists. split; [reflexivity|now right].
Qed.

(** With the store answering and a password that bcrypt verifies against
    its own hash, registering a new username and email and then logging in
    with the same username and password succeeds, and the login token
    carries the id the store gave the new user. *)
Theorem register_then_login (m m' : moment) (w : world) (req req' : request) :
  store m = Healthy -> store m' = Healthy ->
  truthy (body_username req) = true ->
  truthy (body_password req) = true ->
  truthy (body_email req) = true ->
  NoDup (map user_name (users w)) ->
  ~ In (str (body_username req)) (map user_name (users w)) ->
  ~ In (str (body_email req)) (map user_email (users w)) ->
  bcrypt_compare (str (body_password req))
                 (bcrypt_hash (str (body_password req))) = true ->
  body_username req' = body_username req ->
  body_password req' = body_password req ->
  let newId := fresh_id (map user_pk (users w)) in
  let account := {| pu_id := newId; pu_username := str (body_username req);
                    pu_email := str (body_email req) |} in
  fst (register JWT_SECRET bcrypt_hash m w req)
  = Json 201 (Session "Usuario creado exitosamente"
                (jwt_sign (access_claims newId (str (body_username req)))
                          JWT_SECRET access_ttl (now m)) account)
  /\ login JWT_SECRET bcrypt_compare m'
           (snd (register JWT_SECRET bcrypt_hash m w req)) req'
     = Json 200 (Session "Login exitoso"
                   (jwt_sign (access_claims newId (str (body_username req)))
                             JWT_SECRET access_ttl (now m')) account).
Proof.
  intros Hs Hs' Hu Hp He Hnd Hnew Hmail Hbcrypt Hu' Hp' newId account.
  rewrite register_outcome, Hu, Hp, He, Hs. cbn [negb orb].
  rewrite (no_duplicate_none_back _ _ _ Hnew Hmail). cbn [fst snd].
  split; [reflexivity|].
  set (row := {| user_pk := newId; user_name := str (body_username req);
                 user_email := str (body_email req);
                 user_password := bcrypt_hash (str (body_password req)) |}).
  unfold login. rewrite Hu', Hp', Hu, Hp, Hs'. cbn [negb orb answer].
  cbn [users with_users].
  assert (Hnd' : NoDup (map user_name (users w ++ [row]))).
  { rewrite map_app. cbn [map]. now apply NoDup_snoc. }
  assert (Hin : In row (users w ++ [row]))
    by (apply in_or_app; right; now left).
  pose proof (filter_name_unique _ row Hnd' Hin) as Hone.
  subst row account newId. cbn [user_name] in Hone. rewrite Hone.
  cbn [single data error user_password]. rewrite Hbcrypt. reflexivity.
Qed.

(** The token a successful Login or Register returns, sent as bearer
    token, is let through by the middleware with the user's id and
    username for the 86400 seconds after it was issued, and is answered
    403 from then on. *)
Theorem session_token_lifetime (m m' : moment) (w : world) (req : request)
    (msg : string) (tok : text) (u : public_user) :
  login JWT_SECRET bcrypt_compare m w req = Json 200 (Session msg tok u)
  \/ fst (register JWT_SECRET bcrypt_hash m w req)
     = Json 201 (Session msg tok u) ->
  ((now m' < now m + 86400)%N ->
     authenticateToken JWT_SECRET m' (Some (plain "Bearer " ++ tok))
     = Next {| claim_id := Some (pu_id u);
               claim_username := Some (pu_username u);
               claim_fileId := None |})
  /\ ((now m + 86400 <= now m')%N ->
        authenticateToken JWT_SECRET m' (Some (plain "Bearer " ++ tok))
        = Respond forbidden).
Proof.
  intros Hsession.
  assert (Hrow : exists row, tok = access_token JWT_SECRET m row
                             /\ u = public row).
  { destruct Hsession as [H|H];
      [eapply login_session | eapply register_session]; eassumption. }
  destruct Hrow as (row & -> & ->). unfold access_token.
  split; intros Ht.
  - unfold jwt_sign at 1. rewrite authenticate_signed.
    fold (jwt_sign (access_claims (user_pk row) (user_name row)) JWT_SECRET
                   access_ttl (now m)).
    now rewrite verify_signed.
  - unfold jwt_sign at 1. rewrite authenticate_signed.
    fold (jwt_sign (access_claims (user_pk row) (user_name row)) JWT_SECRET
                   access_ttl (now m)).
    now rewrite verify_expired.
Qed.

End Registration.

(* ------------------------------------------------------------------ *)
(** ** Uploads *)

Lemma insert_at_perm {A} (k : nat) (x : A) (l : list A) :
  Permutation (insert_at k x l) (x :: l).
Proof.
  revert k. induction l as [|y l IH]; intros k.
  - destruct k; apply Permutation_refl.
  - destruct k as [|k]; cbn; [apply Permutation_refl|].
    eapply perm_trans; [apply perm_skip, IH|apply perm_swap].
Qed.

Lemma arrange_perm {A} (picks : list nat) (l : list A) :
  Permutation (arrange picks l) l.
Proof.
  revert picks. induction l as [|x l IH]; intros picks; cbn.
  - apply perm_nil.
  - eapply perm_trans; [apply insert_at_perm|]. apply perm_skip, IH.
Qed.

Lemma ensure_dir_world w dir :
  ensure_dir w dir
  = {| users := users w; files := files w;
       disk := if existsSync w dir then disk w else dir :: disk w |}.
Proof.
  unfold ensure_dir. destruct (existsSync w dir); [now destruct w|reflexivity].
Qed.

Section Uploads.

Variable JWT_SECRET : string.
Variable uploadsDir : string.
Variable bcrypt_hash : string -> string.
Variable bcrypt_compare : string -> string -> bool.

Lemma upload_route m w req user :
  req_method req = POST -> req_route req = ApiUpload ->
  authenticateToken JWT_SECRET m (authorization req) = Next user ->
  app JWT_SECRET uploadsDir bcrypt_hash bcrypt_compare m w req =
  match upload_single uploadsDir m w user (part req) with
  | inl (message, w1) => (Unhandled message, w1)
  | inr (file, w1) => upload m w1 user file
  end.
Proof.
  intros Hm Hr Ha. unfold app, guarded. now rewrite Hm, Hr, Ha.
Qed.

Lemma upload_stored m w user uid file :
  fileFilter file = true -> claim_id user = Some uid ->
  (size file <= fileSize)%Z ->
  upload_single uploadsDir m w user (Some file) =
  let userDir := (uploadsDir ++ "/" ++ toString uid)%string in
  let name := (uniqueSuffix m ++ "-" ++ originalname file)%string in
  let path := (userDir ++ "/" ++ name)%string in
  inr (Some {| sf_filename := name; sf_originalname := originalname file;
               sf_path := path; sf_size := size file;
               sf_mimetype := mimetype file |},
       {| users := users w; files := files w;
          disk := path :: (if existsSync w userDir then disk w
                           else userDir :: disk w) |}).
Proof.
  intros Hf Hid Hsize. unfold upload_single. rewrite Hf, Hid. cbn [negb].
  destruct (Z.gtb_spec (size file) fileSize) as [Hgt|_]; [lia|].
  cbn zeta. now rewrite ensure_dir_world.
Qed.

(** An upload the filter refuses is answered by the error handed to the
    framework and leaves users, files and disk as they were.  An accepted
    upload of more than 10485760 bytes is answered 'File too large'; it
    registers nothing and keeps no file, but the destination callback has
    run before the limit is met, so the caller's directory under the
    uploads directory now exists. *)
Theorem refused_upload_registers_nothing (m : moment) (w : world)
    (req : request) (user : claims) (file : upload_part) :
  req_method req = POST -> req_route req = ApiUpload ->
  authenticateToken JWT_SECRET m (authorization req) = Next user ->
  part req = Some file ->
  (fileFilter file = false ->
     app JWT_SECRET uploadsDir bcrypt_hash bcrypt_compare m w req
     = (Unhandled "Tipo de archivo no permitido", w))
  /\ (forall uid,
        fileFilter file = true -> claim_id user = Some uid ->
        (10485760 < size file)%Z ->
        let userDir := (uploadsDir ++ "/" ++ toString uid)%string in
        app JWT_SECRET uploadsDir bcrypt_hash bcrypt_compare m w req
        = (Unhandled "File too large",
           {| users := users w; files := files w;
              disk := if existsSync w userDir then disk w
                      else userDir :: disk w |})).
Proof.
  intros Hm Hr Ha Hp. rewrite (upload_route m w req user Hm Hr Ha), Hp.
  unfold upload_single. split.
  - intros Hf. now rewrite Hf.
  - intros uid Hf Hid Hsize. rewrite Hf, Hid. cbn [negb].
    destruct (Z.gtb_spec (size file) fileSize) as [_|Hle].
    + cbn zeta. now rewrite ensure_dir_world.
    + unfold fileSize in Hle. lia.
Qed.

(** With the store answering and file ids unique, an accepted upload of
    at most 10485760 bytes makes the caller's directory if it is not
    there, stores the file in it with the unique suffix before its
    original name, and registers it as the caller's unshared file under
    a new id; from then on the caller downloads it under its original
    name, a caller with another id is answered 500 for it (the 'no rows'
    error of [.single()]), and the caller's list holds it together with
    the caller's earlier files, in the order the store picks. *)
Theorem upload_then_download (m m' : moment) (w : world) (req : request)
    (user : claims) (uid : Z) (file : upload_part) :
  req_method req = POST -> req_route req = ApiUpload ->
  authenticateToken JWT_SECRET m (authorization req) = Next user ->
  claim_id user = Some uid ->
  part req = Some file -> fileFilter file = true ->
  (size file <= 10485760)%Z ->
  store m = Healthy -> store m' = Healthy ->
  NoDup (map file_id (files w)) ->
  let newId := fresh_id (map file_id (files w)) in
  let userDir := (uploadsDir ++ "/" ++ toString uid)%string in
  let name := (uniqueSuffix m ++ "-" ++ originalname file)%string in
  let path := (userDir ++ "/" ++ name)%string in
  let row := {| file_id := newId; user_id := uid; filename := name;
                original_name := originalname file; file_path := path;
                file_size := size file; mime_type := mimetype file;
                is_shared := false; share_token := None;
                uploaded_at := now m |} in
  let after :=
    snd (app JWT_SECRET uploadsDir bcrypt_hash bcrypt_compare m w req) in
  app JWT_SECRET uploadsDir bcrypt_hash bcrypt_compare m w req
  = (Json 200 (Uploaded "Archivo subido exitosamente" newId
                 (originalname file) (size file) (mimetype file)),
     {| users := users w; files := files w ++ [row];
        disk := path :: (if existsSync w userDir then disk w
                         else userDir :: disk w) |})
  /\ ~ In newId (map file_id (files w))
  /\ download m' after user newId = SendFile path (originalname file)
  /\ (forall other o, claim_id other = Some o -> o <> uid ->
        download m' after other newId
        = Json 500 (Err "Error al buscar archivo" (Some no_single_row)))
  /\ (exists listed,
        list_files m' after user = Json 200 (Listing listed)
        /\ In (summary row) listed
        /\ Permutation listed
             (map summary (select (list_query user) (files w))
              ++ [summary row])).
Proof.
  intros Hm Hr Ha Hid Hp Hf Hsize Hs Hs' Hnd newId userDir name path row after.
  assert (Happ : app JWT_SECRET uploadsDir bcrypt_hash bcrypt_compare m w req
                 = (Json 200 (Uploaded "Archivo subido exitosamente" newId
                                (originalname file) (size file) (mimetype file)),
                    {| users := users w; files := files w ++ [row];
                       disk := path :: (if existsSync w userDir then disk w
                                        else userDir :: disk w) |})).
  { rewrite (upload_route m w req user Hm Hr Ha), Hp.
    rewrite (upload_stored m w user uid file Hf Hid Hsize).
    cbn zeta. unfold upload, insert_file.
    cbn [sf_filename sf_originalname sf_path sf_size sf_mimetype files].
    rewrite Hs, Hid. reflexivity. }
  assert (Hnew : ~ In newId (map file_id (files w))) by apply fresh_id_new.
  assert (Hnd' : NoDup (map file_id (files w ++ [row]))).
  { rewrite map_app. cbn [map]. now apply NoDup_snoc. }
  assert (Hin : In row (files w ++ [row]))
    by (apply in_or_app; right; now left).
  unfold after. rewrite Happ. cbn [snd].
  split; [reflexivity|]. split; [exact Hnew|]. split; [|split].
  - rewrite download_cases, Hs'. unfold download_query, rejected.
    cbn [existsb undefined_value files]. rewrite Hid. cbn [orb].
    pose proof (select_id_unique [EqUserId (Some uid)] _ row Hnd' Hin)
      as Hone.
    cbn [file_id row] in Hone. rewrite Hone.
    cbn [matches forallb holds user_id row eq_int].
    rewrite Z.eqb_refl. cbn [andb file_path original_name row].
    unfold existsSync. cbn [disk existsb]. now rewrite String.eqb_refl.
  - intros other o Ho Hother. rewrite download_cases, Hs'.
    unfold download_query, rejected.
    cbn [existsb undefined_value files]. rewrite Ho. cbn [orb].
    pose proof (select_id_unique [EqUserId (Some o)] _ row Hnd' Hin)
      as Hone.
    cbn [file_id row] in Hone. rewrite Hone.
    cbn [matches forallb holds user_id row eq_int].
    destruct (Z.eqb_spec o uid) as [Heq|_]; [now elim Hother|reflexivity].
  - rewrite list_cases, Hs'. unfold list_query at 1, rejected.
    cbn [existsb undefined_value files]. rewrite Hid. cbn [orb].
    eexists. split; [reflexivity|].
    assert (Hsel : select (list_query user) (files w ++ [row])
                   = select (list_query user) (files w) ++ [row]).
    { rewrite select_snoc. unfold list_query at 2.
      cbn [matches forallb holds user_id row]. rewrite Hid. cbn [eq_int].
      now rewrite Z.eqb_refl. }
    assert (Hperm : Permutation
                      (map summary
                         (arrange (order m')
                            (select (list_query user) (files w ++ [row]))))
                      (map summary (select (list_query user) (files w))
                       ++ [summary row])).
    { rewrite Hsel, <- (map_app summary _ [row]) .
      apply Permutation_map, arrange_perm. }
    split; [|exact Hperm].
    apply (Permutation_in _ (Permutation_sym Hperm)).
    apply in_or_app. right. now left.
Qed.

(** The file is written to disk before the registry is asked.  When the
    store then reports an error or throws, the request is answered 500,
    no row is registered, and the file stays on disk, in the caller's
    directory. *)
Theorem failed_registration_leaves_file_on_disk (m : moment) (w : world)
    (req : request) (user : claims) (uid : Z) (file : upload_part)
    (msg : string) :
  req_method req = POST -> req_route req = ApiUpload ->
  authenticateToken JWT_SECRET m (authorization req) = Next user ->
  claim_id user = Some uid ->
  part req = Some file -> fileFilter file = true ->
  (size file <= 10485760)%Z ->
  let userDir := (uploadsDir ++ "/" ++ toString uid)%string in
  let path := (userDir ++ "/"
               ++ (uniqueSuffix m ++ "-" ++ originalname file))%string in
  let kept := {| users := users w; files := files w;
                 disk := path :: (if existsSync w userDir then disk w
                                  else userDir :: disk w) |} in
  (store m = Reports msg ->
     app JWT_SECRET uploadsDir bcrypt_hash bcrypt_compare m w req
     = (Json 500 (Err "Error al guardar archivo en base de datos" (Some msg)),
        kept))
  /\ (store m = Throws msg ->
        app JWT_SECRET uploadsDir bcrypt_hash bcrypt_compare m w req
        = (Json 500 (Err "Error al subir archivo" None), kept)).
Proof.
  intros Hm Hr Ha Hid Hp Hf Hsize userDir path kept.
  rewrite (upload_route m w req user Hm Hr Ha), Hp.
  rewrite (upload_stored m w user uid file Hf Hid Hsize).
  cbn zeta. unfold upload, insert_file.
  cbn [sf_filename sf_originalname sf_path sf_size sf_mimetype files].
  split; intros Hs; rewrite Hs; reflexivity.
Qed.

End Uploads.

(* ------------------------------------------------------------------ *)
(** ** What a request can do to the state *)

Section Routes.

Variable JWT_SECRET : string.
Variable uploadsDir : string.
Variable bcrypt_hash : string -> string.
Variable bcrypt_compare : string -> string -> bool.

Lemma upload_files_shape m w1 user file :
  files (snd (upload m w1 user file)) = files w1
  \/ exists row, files (snd (upload m w1 user file)) = files w1 ++ [row]
                 /\ file_id row = fresh_id (map file_id (files w1))
                 /\ is_shared row = false /\ share_token row = None.
Proof.
  unfold upload, insert_file. destruct file as [f|]; [|now left].
  destruct (store m); cbn.
  - destruct (claim_id user); cbn; [|now left].
    right. eexists. repeat split; reflexivity.
  - now left.
  - now left.
Qed.

Lemma upload_single_files m w user p :
  match upload_single uploadsDir m w user p with
  | inl (_, w1) | inr (_, w1) => files w1 = files w /\ users w1 = users w
  end.
Proof.
  unfold upload_single. destruct p as [f|]; [|now split].
  destruct (negb (fileFilter f)); [now split|].
  destruct (claim_id user); [|now split].
  cbn zeta. rewrite ensure_dir_world.
  destruct (size f >? fileSize)%Z; now split.
Qed.

Lemma app_files_shape m w req :
  let after :=
    snd (app JWT_SECRET uploadsDir bcrypt_hash bcrypt_compare m w req) in
  files after = files w
  \/ (exists q tok, files after = update q (set_shared tok) (files w))
  \/ (exists row, files after = files w ++ [row]
                  /\ file_id row = fresh_id (map file_id (files w))
                  /\ is_shared row = false /\ share_token row = None).
Proof.
  cbn zeta. unfold app, guarded.
  destruct (req_method req), (req_route req); try (now left);
    try (destruct (authenticateToken JWT_SECRET m (authorization req));
         now left).
  - (* register *)
    rewrite register_outcome.
    destruct (negb (truthy (body_username req))
              || negb (truthy (body_password req))
              || negb (truthy (body_email req))); [now left|].
    destruct (store m); try (now left).
    destruct (existsb _ (users w)); now left.
  - (* upload *)
    destruct (authenticateToken JWT_SECRET m (authorization req))
      as [r|user]; [now left|].
    pose proof (upload_single_files m w user (part req)) as Hsingle.
    destruct (upload_single uploadsDir m w user (part req))
      as [[msg w1]|[file w1]]; destruct Hsingle as [Hfiles _];
      [now left|].
    destruct (upload_files_shape m w1 user file)
      as [H|(row & H & Hid & Hflag & Htok)].
    + left. now rewrite H.
    + right. right. exists row. now rewrite H, Hid, Hfiles.
  - (* share *)
    destruct (authenticateToken JWT_SECRET m (authorization req))
      as [r|user]; [now left|].
    rewrite share_effect. destruct (store m); try (now left).
    right. left. now do 2 eexists.
Qed.

(** A request that changes users, files or disk is a POST; it is a
    registration, or it carries a token the middleware lets through and
    is an upload or a share.  Every other request, GET and DELETE
    included, leaves the state as it was. *)
Theorem state_changing_requests (m : moment) (w : world) (req : request) :
  snd (app JWT_SECRET uploadsDir bcrypt_hash bcrypt_compare m w req) <> w ->
  req_method req = POST
  /\ (req_route req = ApiRegister
      \/ exists user,
           authenticateToken JWT_SECRET m (authorization req) = Next user
           /\ (req_route req = ApiUpload
               \/ exists id, req_route req = ApiFileShare id)).
Proof.
  unfold app, guarded.
  destruct (req_method req), (req_route req); cbn [snd];
    try (intros H; now elim H);
    try (destruct (authenticateToken JWT_SECRET m (authorization req));
         intros H; now elim H).
  - intros _. split; [reflexivity|now left].
  - destruct (authenticateToken JWT_SECRET m (authorization req)) as [r|user];
      [intros H; now elim H|].
    intros _. split; [reflexivity|]. right. exists user. split; auto.
  - destruct (authenticateToken JWT_SECRET m (authorization req)) as [r|user];
      [intros H; now elim H|].
    intros _. split; [reflexivity|]. right. exists user. split; eauto.
Qed.

(** No request removes a row of the registry or changes a row's id,
    owner, names, path, size, mime type or upload time, and no request
    turns a shared file back into an unshared one. *)
Theorem registry_rows_persist (m : moment) (w : world) (req : request)
    (r : file_row) :
  In r (files w) ->
  exists r',
    In r' (files (snd (app JWT_SECRET uploadsDir bcrypt_hash bcrypt_compare
                           m w req)))
    /\ file_id r' = file_id r /\ user_id r' = user_id r
    /\ filename r' = filename r /\ original_name r' = original_name r
    /\ file_path r' = file_path r /\ file_size r' = file_size r
    /\ mime_type r' = mime_type r /\ uploaded_at r' = uploaded_at r
    /\ (is_shared r = true -> is_shared r' = true).
Proof.
  intros Hin.
  destruct (app_files_shape m w req) as [H|[(q & tok & H)|(row & H & _)]];
    rewrite H.
  - exists r. repeat split; auto.
  - exists (if matches q r then set_shared tok r else r). split.
    + unfold update. apply in_map_iff. now exists r.
    + destruct (matches q r); repeat split; auto.
  - exists r. split; [apply in_or_app; now left|]. repeat split; auto.
Qed.

(** Whatever the request, file ids stay free of duplicates. *)
Theorem file_ids_stay_unique (m : moment) (w : world) (req : request) :
  NoDup (map file_id (files w)) ->
  NoDup (map file_id
           (files (snd (app JWT_SECRET uploadsDir bcrypt_hash bcrypt_compare
                            m w req)))).
Proof.
  intros Hnd.
  destruct (app_files_shape m w req)
    as [H|[(q & tok & H)|(row & H & Hid & _)]];
    rewrite H.
  - exact Hnd.
  - rewrite update_ids; [exact Hnd|apply set_shared_id].
  - rewrite map_app. cbn [map]. apply NoDup_snoc; [exact Hnd|].
    rewrite Hid. apply fresh_id_new.
Qed.

(** Whatever the request, the sharing flag and the stored token stay in
    step: if every row was shared exactly when it stored a token, every
    row still is. *)
Theorem flag_and_token_stay_in_step (m : moment) (w : world) (req : request) :
  Forall sharing_consistent (files w) ->
  Forall sharing_consistent
         (files (snd (app JWT_SECRET uploadsDir bcrypt_hash bcrypt_compare
                          m w req))).
Proof.
  intros Hall.
  destruct (app_files_shape m w req)
    as [H|[(q & tok & H)|(row & H & _ & Hflag & Htok)]];
    rewrite H.
  - exact Hall.
  - unfold update. apply Forall_forall. intros r Hr.
    apply in_map_iff in Hr. destruct Hr as (r0 & <- & Hin).
    destruct (matches q r0).
    + unfold sharing_consistent. cbn. split; [discriminate|reflexivity].
    + rewrite Forall_forall in Hall. now apply Hall.
  - apply Forall_app. split; [exact Hall|]. constructor; [|constructor].
    unfold sharing_consistent. rewrite Hflag, Htok.
    split; [discriminate|intros Hn; now elim Hn].
Qed.

End Routes.

(* ------------------------------------------------------------------ *)
(** ** Words of the Authorization header *)

Lemma split_space_cons (p : piece) (rest : text) :
  p <> Chr " " ->
  split_space (p :: rest) =
  match split_space rest with
  | word :: words => (p :: word) :: words
  | [] => [[p]]
  end.
Proof.
  intros Hp. destruct p as [c|t]; [|reflexivity].
  destruct c as [[] [] [] [] [] [] [] []]; try reflexivity; now elim Hp.
Qed.

Lemma split_space_first (word x : text) :
  Forall (fun p => p <> Chr " ") word ->
  split_space (word ++ Chr " " :: x) = word :: split_space x.
Proof.
  induction 1 as [|p word Hp Hword IH]; [reflexivity|].
  rewrite <- app_comm_cons, (split_space_cons _ _ Hp), IH. reflexivity.
Qed.

Lemma split_space_one (word : text) :
  Forall (fun p => p <> Chr " ") word -> split_space word = [word].
Proof.
  induction 1 as [|p word Hp Hword IH]; [reflexivity|].
  rewrite (split_space_cons _ _ Hp), IH. reflexivity.
Qed.

Lemma plain_no_space (s : string) :
  (forall c, In c (list_ascii_of_string s) -> c <> " "%char) ->
  Forall (fun p => p <> Chr " ") (plain s).
Proof.
  induction s as [|c s IH]; intros H; cbn; constructor.
  - intros Heq. inversion Heq; subst. apply (H " "%char); [now left|reflexivity].
  - apply IH. intros c' Hc'. apply H. now right.
Qed.

(** The middleware takes the second word of the header, whatever the
    first word is and whatever follows the second: any scheme name in
    place of 'Bearer' and any trailing words give the same result. *)
Theorem scheme_word_is_not_checked (JWT_SECRET : string) (m : moment)
    (scheme : string) (token extra : text) :
  (forall c, In c (list_ascii_of_string scheme) -> c <> " "%char) ->
  Forall (fun p => p <> Chr " ") token ->
  authenticateToken JWT_SECRET m
    (Some (plain scheme ++ Chr " " :: token ++ Chr " " :: extra))
  = authenticateToken JWT_SECRET m (Some (plain "Bearer " ++ token))
  /\ authenticateToken JWT_SECRET m (Some (plain scheme ++ Chr " " :: token))
     = authenticateToken JWT_SECRET m (Some (plain "Bearer " ++ token)).
Proof.
  intros Hscheme Htoken.
  assert (Hb : forall x, bearer (Some (plain scheme ++ Chr " " :: x))
                         = hd_error (split_space x)).
  { intros x. unfold bearer.
    rewrite (split_space_first _ x (plain_no_space _ Hscheme)).
    destruct (plain scheme ++ Chr " " :: x) eqn:Hh.
    - destruct (plain scheme); discriminate.
    - cbn. destruct (split_space x); reflexivity. }
  unfold authenticateToken. rewrite !Hb, bearer_of.
  rewrite (split_space_first _ extra Htoken).
  now rewrite (split_space_one _ Htoken).
Qed.

(* ------------------------------------------------------------------ *)
(** ** Extensions *)

Lemma lower_keeps_slash (c : ascii) :
  Ascii.eqb (Js.lower_ascii c) "/" = Ascii.eqb c "/".
Proof. destruct c as [[] [] [] [] [] [] [] []]; reflexivity. Qed.

Lemma lower_keeps_dot (c : ascii) :
  Ascii.eqb (Js.lower_ascii c) "." = Ascii.eqb c ".".
Proof. destruct c as [[] [] [] [] [] [] [] []]; reflexivity. Qed.

Lemma lower_twice (c : ascii) :
  Js.lower_ascii (Js.lower_ascii c) = Js.lower_ascii c.
Proof. destruct c as [[] [] [] [] [] [] [] []]; reflexivity. Qed.

Lemma toLowerCase_twice (s : string) :
  Js.toLowerCase (Js.toLowerCase s) = Js.toLowerCase s.
Proof.
  induction s as [|c s IH]; [reflexivity|].
  cbn. now rewrite lower_twice, IH.
Qed.

Lemma ext_scan_lower (chars : list ascii) :
  forall i s, Js.ext_scan (map Js.lower_ascii chars) i s = Js.ext_scan chars i s.
Proof.
  induction chars as [|c chars IH]; intros i s; [reflexivity|].
  cbn [map Js.ext_scan]. rewrite lower_keeps_slash, lower_keeps_dot.
  cbn zeta. rewrite !IH. reflexivity.
Qed.

Lemma chars_lower (s : string) :
  list_ascii_of_string (Js.toLowerCase s)
  = map Js.lower_ascii (list_ascii_of_string s).
Proof. induction s as [|c s IH]; [reflexivity|]. cbn. now rewrite IH. Qed.

Lemma length_lower (s : string) :
  String.length (Js.toLowerCase s) = String.length s.
Proof. induction s as [|c s IH]; [reflexivity|]. cbn. now rewrite IH. Qed.

Lemma substring_lower (s : string) :
  forall n k, substring n k (Js.toLowerCase s)
              = Js.toLowerCase (substring n k s).
Proof.
  induction s as [|c s IH]; intros n k.
  - destruct n, k; reflexivity.
  - destruct n as [|n]; destruct k as [|k]; cbn; try reflexivity;
      now rewrite IH.
Qed.

Lemma extname_lower (p : string) :
  Js.extname (Js.toLowerCase p) = Js.toLowerCase (Js.extname p).
Proof.
  unfold Js.extname. rewrite chars_lower, <- map_rev, ext_scan_lower.
  rewrite length_lower. cbn zeta.
  destruct (Js.startDot _) as [d|]; [|reflexivity].
  destruct (Js.end_ _) as [e|]; [|reflexivity].
  destruct (_ || _); [reflexivity|]. apply substring_lower.
Qed.

(** The filter looks at the extension without regard to case: two names
    that differ only in the case of their letters get the same verdict,
    for the same declared mime type. *)
Theorem filter_ignores_case_of_name (n1 n2 mime : string) (s1 s2 : Z) :
  Js.toLowerCase n1 = Js.toLowerCase n2 ->
  fileFilter {| originalname := n1; mimetype := mime; size := s1 |}
  = fileFilter {| originalname := n2; mimetype := mime; size := s2 |}.
Proof.
  intros Hsame. unfold fileFilter. cbn [originalname mimetype].
  assert (Hext : Js.toLowerCase (Js.extname n1)
                 = Js.toLowerCase (Js.extname n2))
    by (rewrite <- !extname_lower; now rewrite Hsame).
  now rewrite Hext.
Qed.

Lemma ext_scan_no_dot (chars : list ascii) :
  (forall c, In c chars -> c <> "."%char) ->
  forall i s, Js.startDot s = None ->
              Js.startDot (Js.ext_scan chars i s) = None.
Proof.
  induction chars as [|c chars IH]; intros Hno i s Hs; [exact Hs|].
  cbn [Js.ext_scan].
  assert (Hc : Ascii.eqb c "." = false).
  { apply Ascii.eqb_neq. apply Hno. now left. }
  assert (Hrest : forall c', In c' chars -> c' <> "."%char)
    by (intros c' Hc'; apply Hno; now right).
  rewrite Hc. destruct (Ascii.eqb c "/").
  - destruct (negb (Js.matchedSlash s)); [exact Hs|]. now apply IH.
  - cbn zeta. apply IH; [exact Hrest|].
    destruct (Js.end_ s); cbn [Js.startDot]; rewrite Hs;
      cbn [Js.startDot]; auto.
Qed.

(** A file whose name has no dot has no extension and is refused,
    whatever mime type it declares. *)
Theorem name_without_dot_is_refused (file : upload_part) :
  (forall c, In c (list_ascii_of_string (originalname file)) ->
             c <> "."%char) ->
  Js.extname (originalname file) = ""%string /\ fileFilter file = false.
Proof.
  intros Hno.
  assert (Hext : Js.extname (originalname file) = ""%string).
  { unfold Js.extname. cbn zeta.
    rewrite ext_scan_no_dot; [reflexivity| |reflexivity].
    intros c Hc. apply Hno. now apply in_rev. }
  split; [exact Hext|]. unfold fileFilter. rewrite Hext.
  apply andb_false_r.
Qed.

Lemma ext_scan_leading_dot (chars : list ascii) :
  (forall c, In c chars -> c <> "."%char /\ c <> "/"%char) ->
  forall i s, Js.startDot s = None -> Js.preDotState s = 0%Z ->
              Js.preDotState (Js.ext_scan (chars ++ ["."%char]) i s) = 0%Z.
Proof.
  induction chars as [|c chars IH]; intros Hno i s Hs Hp.
  - cbn. destruct (Js.end_ s); cbn [Js.startDot]; rewrite Hs; cbn; exact Hp.
  - rewrite <- app_comm_cons. cbn [Js.ext_scan].
    destruct (Hno c (or_introl eq_refl)) as [Hdot Hslash].
    apply Ascii.eqb_neq in Hdot. apply Ascii.eqb_neq in Hslash.
    rewrite Hdot, Hslash. cbn zeta.
    assert (Hrest : forall c', In c' chars ->
                               c' <> "."%char /\ c' <> "/"%char)
      by (intros c' Hc'; apply Hno; now right).
    apply IH; [exact Hrest| |];
      destruct (Js.end_ s); cbn [Js.startDot]; rewrite Hs;
        cbn [Js.startDot Js.preDotState]; auto.
Qed.

(** A name that starts with its only dot, such as [.pdf], has no
    extension for [path.extname] and is refused, whatever follows the dot
    and whatever mime type is declared. *)
Theorem name_starting_with_its_only_dot_is_refused (file : upload_part)
    (rest : string) :
  originalname file = String "." rest ->
  (forall c, In c (list_ascii_of_string rest) ->
             c <> "."%char /\ c <> "/"%char) ->
  Js.extname (originalname file) = ""%string /\ fileFilter file = false.
Proof.
  intros Hname Hno.
  assert (Hext : Js.extname (originalname file) = ""%string).
  { rewrite Hname. unfold Js.extname. cbn zeta.
    cbn [list_ascii_of_string rev].
    pose proof (ext_scan_leading_dot (rev (list_ascii_of_string rest))) as Hp.
    specialize (Hp (fun c Hc => Hno c (proj2 (in_rev _ c) Hc))).
    specialize (Hp (String.length (String "." rest) - 1) Js.ext_init
                   eq_refl eq_refl).
    rewrite Hp. cbn [Z.eqb orb].
    destruct (Js.startDot _); [|reflexivity].
    destruct (Js.end_ _); reflexivity. }
  split; [exact Hext|]. unfold fileFilter. rewrite Hext.
  apply andb_false_r.
Qed.

(* ------------------------------------------------------------------ *)
(** ** The public id of an object sent to Cloudinary *)

Lemma keeps_underscore : Cloudinary.keeps "_" = false.
Proof. reflexivity. Qed.

(** In the public id [uploadFile] asks for, the part made from the
    original name consists of letters, digits, dots and underscores only,
    so it holds no slash and no space; a name that already consists of
    letters, digits and dots is used as it is, and cleaning a cleaned name
    changes nothing. *)
Theorem public_id_is_clean (dateNow : Z) (originalName : string) :
  Cloudinary.public_id (Cloudinary.uploadOptions dateNow originalName)
  = ("files/" ++ toString dateNow ++ "-"
     ++ Cloudinary.sanitize originalName)%string
  /\ Forall (fun c => Cloudinary.keeps c = true \/ c = "_"%char)
            (list_ascii_of_string (Cloudinary.sanitize originalName))
  /\ ~ In "/"%char (list_ascii_of_string (Cloudinary.sanitize originalName))
  /\ ~ In " "%char (list_ascii_of_string (Cloudinary.sanitize originalName))
  /\ (Forall (fun c => Cloudinary.keeps c = true)
             (list_ascii_of_string originalName) ->
      Cloudinary.sanitize originalName = originalName)
  /\ Cloudinary.sanitize (Cloudinary.sanitize originalName)
     = Cloudinary.sanitize originalName.
Proof.
  assert (Hclean : Forall (fun c => Cloudinary.keeps c = true \/ c = "_"%char)
            (list_ascii_of_string (Cloudinary.sanitize originalName))).
  { induction originalName as [|c s IH]; cbn; constructor; auto.
    destruct (Cloudinary.keeps c) eqn:Hk; auto. }
  split; [reflexivity|]. split; [exact Hclean|].
  rewrite Forall_forall in Hclean.
  split; [|split; [|split]].
  - intros Hin. destruct (Hclean _ Hin) as [H|H]; discriminate.
  - intros Hin. destruct (Hclean _ Hin) as [H|H]; discriminate.
  - induction originalName as [|c s IH]; cbn; [reflexivity|].
    intros Hall. inversion Hall as [|? ? Hc Hs]; subst.
    rewrite Hc, IH; auto.
    intros c' Hc'. apply Hclean. cbn. now right.
  - clear Hclean. induction originalName as [|c s IH]; cbn; [reflexivity|].
    rewrite IH. destruct (Cloudinary.keeps c) eqn:Hk.
    + now rewrite Hk.
    + now rewrite keeps_underscore.
Qed.

(* ------------------------------------------------------------------ *)
(** ** Starting the server *)

(** The server starts only when both Supabase variables are set and not
    empty.  When it starts, the signing secret is never empty: without a
    JWT_SECRET in the environment it is the text written in the source,
    and then a token that anyone signs with that text for any user id
    passes the middleware. *)
Theorem server_starts_with_a_secret (env : Startup.environment)
    (cfg : Startup.settings) :
  Startup.start env = Some cfg ->
  truthy (Startup.SUPABASE_URL env) = true
  /\ truthy (Startup.SUPABASE_SERVICE_KEY env) = true
  /\ Startup.secret cfg <> ""%string
  /\ (truthy (Startup.JWT_SECRET env) = true ->
      Some (Startup.secret cfg) = Startup.JWT_SECRET env)
  /\ (truthy (Startup.JWT_SECRET env) = false ->
      forall m uid name,
        authenticateToken (Startup.secret cfg) m
          (Some (plain "Bearer "
                 ++ jwt_sign (access_claims uid name)
                             "tu_clave_secreta_muy_segura" access_ttl (now m)))
        = Next (access_claims uid name)).
Proof.
  unfold Startup.start, Startup.or_else.
  destruct (truthy (Startup.SUPABASE_URL env)); [|discriminate].
  destruct (truthy (Startup.SUPABASE_SERVICE_KEY env)); [|discriminate].
  cbn [negb orb]. intros H. inversion H; subst; clear H.
  cbn [Startup.secret]. repeat split.
  - destruct (Startup.JWT_SECRET env) as [s|]; cbn; [|discriminate].
    destruct (String.eqb_spec s ""); cbn; [discriminate|assumption].
  - intros Ht. rewrite Ht. destruct (Startup.JWT_SECRET env); [reflexivity|].
    discriminate.
  - intros Hf m uid name. rewrite Hf. unfold jwt_sign at 1.
    rewrite authenticate_signed.
    fold (jwt_sign (access_claims uid name) "tu_clave_secreta_muy_segura"
                   access_ttl (now m)).
    rewrite verify_signed; [reflexivity|]. unfold access_ttl, day. lia.
Qed.

(* ------------------------------------------------------------------ *)
(** ** Creating the tables *)

Lemma create_present name ts :
  In name (InitDb.create_if_not_exists name ts).
Proof.
  unfold InitDb.create_if_not_exists.
  destruct (existsb (String.eqb name) ts) eqn:He.
  - apply existsb_exists in He. destruct He as (x & Hin & Heq).
    apply String.eqb_eq in Heq. now subst.
  - apply in_or_app. right. now left.
Qed.

Lemma create_keeps name ts t :
  In t ts -> In t (InitDb.create_if_not_exists name ts).
Proof.
  unfold InitDb.create_if_not_exists.
  destruct (existsb (String.eqb name) ts); [auto|].
  intros H. apply in_or_app. now left.
Qed.

Lemma create_again name ts :
  In name ts -> InitDb.create_if_not_exists name ts = ts.
Proof.
  intros Hin. unfold InitDb.create_if_not_exists.
  assert (He : existsb (String.eqb name) ts = true).
  { apply existsb_exists. exists name. split; [exact Hin|].
    apply String.eqb_refl. }
  now rewrite He.
Qed.

(** When no call fails, the script leaves both tables in the database,
    keeps every table that was there, and a second run changes nothing. *)
Theorem initDatabase_twice_is_once (ts : list string) :
  let once := InitDb.tables (InitDb.initDatabase InitDb.no_failure ts) in
  In "users"%string once /\ In "files"%string once
  /\ (forall t, In t ts -> In t once)
  /\ InitDb.tables (InitDb.initDatabase InitDb.no_failure once) = once
  /\ (In "users"%string ts -> In "files"%string ts -> once = ts).
Proof.
  cbn. repeat split.
  - apply create_keeps, create_present.
  - apply create_present.
  - intros t Ht. now apply create_keeps, create_keeps.
  - rewrite (create_again "users");
      [|apply create_keeps, create_present].
    apply create_again, create_present.
  - intros Hu Hf. rewrite (create_again "users" ts Hu).
    now apply create_again.
Qed.

(** In every run [pool.end()] is called and at most one error is logged.
    The client is released only when no call failed: when a CREATE TABLE
    fails, the client that was checked out is never released, and the
    awaited [pool.end()] then never resolves; it resolves when the
    connection failed or when no call failed.  The files table is never
    there without the users table unless it was there before. *)
Theorem initDatabase_cleanup (p : InitDb.plan) (ts : list string) :
  let r := InitDb.initDatabase p ts in
  InitDb.end_called r = true
  /\ (InitDb.ended r = true
      <-> InitDb.connect_fails p <> None \/ p = InitDb.no_failure)
  /\ (InitDb.released r = true <-> p = InitDb.no_failure)
  /\ (InitDb.errors r = [] <-> p = InitDb.no_failure)
  /\ (length (InitDb.errors r) <= 1)%nat
  /\ (InitDb.connect_fails p = None ->
      InitDb.users_fails p <> None \/ InitDb.files_fails p <> None ->
      InitDb.connected r = true /\ InitDb.released r = false
      /\ InitDb.ended r = false)
  /\ (InitDb.connect_fails p <> None -> InitDb.tables r = ts)
  /\ (In "files"%string (InitDb.tables r) ->
      In "files"%string ts \/ In "users"%string (InitDb.tables r)).
Proof.
  destruct p as [[c|] [u|] [f|]]; cbn; repeat split;
    try solve
      [ reflexivity | lia | discriminate | tauto
      | intros; left; discriminate
      | intros; right; reflexivity
      | intros [H|H]; [now elim H|discriminate]
      | intros _ [H|H]; now elim H
      | intros H; now elim H
      | intros _; right; apply create_present
      | intros _; right; apply create_keeps, create_present ].
Qed.

(* ------------------------------------------------------------------ *)
(** ** The client against the server *)

Section ClientAndServer.

Variable JWT_SECRET : string.
Variable bcrypt_compare : string -> string -> bool.

Lemma login_answers m w req :
  (exists msg row,
     login JWT_SECRET bcrypt_compare m w req
     = Json 200 (Session msg (access_token JWT_SECRET m row) (public row)))
  \/ (exists status text details,
        login JWT_SECRET bcrypt_compare m w req
        = Json status (Err text details)
        /\ (status = 400 \/ status = 401 \/ status = 500)).
Proof.
  unfold login, answer.
  destruct (negb (truthy (body_username req)) || negb (truthy (body_password req))).
  { right. do 3 eexists. split; [reflexivity|auto]. }
  destruct (store m); cbn.
  - destruct (filter _ (users w)) as [|row [|]]; cbn.
    + right. do 3 eexists. split; [reflexivity|auto].
    + destruct (negb (bcrypt_compare _ _)).
      * right. do 3 eexists. split; [reflexivity|auto].
      * left. now do 2 eexists.
    + right. do 3 eexists. split; [reflexivity|auto].
  - right. do 3 eexists. split; [reflexivity|auto].
  - right. do 3 eexists. split; [reflexivity|auto].
Qed.

(** The client's session changes only when the server's Login answered
    200: then the promise is true and the session holds the token and the
    user of the answer; after any other answer (400, 401, 500) the promise
    is false and state, storage and header are what they were, so a user
    already signed in stays signed in. *)
Theorem session_changes_only_on_success (m : moment) (w : world)
    (req : request) (st : Client.state) :
  let answer := login JWT_SECRET bcrypt_compare m w req in
  (exists msg tok u,
     answer = Json 200 (Session msg tok u)
     /\ Client.signed_in st answer
        = (true,
           {| Client.user := Some u; Client.token := Some tok;
              Client.loading := Client.loading st;
              Client.storage_token := Some tok;
              Client.storage_user := Some (Client.ItemJson u);
              Client.header := Some (plain "Bearer " ++ tok) |}))
  \/ (Client.signed_in st answer = (false, st)
      /\ forall msg tok u, answer <> Json 200 (Session msg tok u)).
Proof.
  cbn zeta.
  destruct (login_answers m w req) as [(msg & row & H)|(s & t & d & H & Hs)];
    rewrite H.
  - left. do 3 eexists. split; reflexivity.
  - right. split; [|intros msg tok u Heq; discriminate].
    unfold Client.signed_in, Client.resolved.
    destruct Hs as [ -> | [ -> | -> ] ]; reflexivity.
Qed.

(** After a Login the server answered 200, the client is authenticated,
    a reload of the page restores the same user, token and header from
    local storage, and the header the dashboard sends passes the
    middleware with the user's id for the next 86400 seconds. *)
Theorem login_survives_reload (m m' : moment) (w : world) (req : request)
    (st : Client.state) (msg : string) (tok : text) (u : public_user) :
  login JWT_SECRET bcrypt_compare m w req = Json 200 (Session msg tok u) ->
  (now m' < now m + 86400)%N ->
  let st1 :=
    snd (Client.signed_in st (login JWT_SECRET bcrypt_compare m w req)) in
  Client.isAuthenticated st1 = true
  /\ Client.mount (Client.initial (Client.storage_token st1)
                                  (Client.storage_user st1))
     = Returned {| Client.user := Some u; Client.token := Some tok;
                   Client.loading := false;
                   Client.storage_token := Some tok;
                   Client.storage_user := Some (Client.ItemJson u);
                   Client.header := Some (plain "Bearer " ++ tok) |}
  /\ authenticateToken JWT_SECRET m' (Client.dashboard_header st1)
     = Next {| claim_id := Some (pu_id u);
               claim_username := Some (pu_username u);
               claim_fileId := None |}.
Proof.
  intros Hlogin Hlive. rewrite Hlogin. cbn zeta.
  destruct (login_session _ _ _ _ _ _ _ _ Hlogin) as (row & -> & ->).
  split; [reflexivity|]. split; [reflexivity|].
  change (authenticateToken JWT_SECRET m'
            (Some (plain "Bearer " ++ access_token JWT_SECRET m row))
          = Next {| claim_id := Some (user_pk row);
                    claim_username := Some (user_name row);
                    claim_fileId := None |}).
  unfold access_token. unfold jwt_sign at 1. rewrite authenticate_signed.
  fold (jwt_sign (access_claims (user_pk row) (user_name row)) JWT_SECRET
                 access_ttl (now m)).
  now rewrite verify_signed.
Qed.

(** After logout nothing is left in state, storage or header, and a
    reload stays signed out; the dashboard's requests then carry the text
    'Bearer null', which the middleware answers with the 403 of an invalid
    token, not with the 401 of a missing one. *)
Theorem logged_out_dashboard_is_forbidden (m : moment) (st : Client.state) :
  let out := Client.logout st in
  Client.isAuthenticated out = false
  /\ Client.mount (Client.initial (Client.storage_token out)
                                  (Client.storage_user out))
     = Returned {| Client.user := None; Client.token := None;
                   Client.loading := false; Client.storage_token := None;
                   Client.storage_user := None; Client.header := None |}
  /\ Client.dashboard_header out = Some (plain "Bearer null")
  /\ authenticateToken JWT_SECRET m (Client.dashboard_header out)
     = Respond (Json 403 (Err "Token inválido" None)).
Proof.
  cbn zeta. split; [reflexivity|]. split; [reflexivity|].
  split; [reflexivity|].
  unfold Client.dashboard_header, Client.bearer_of, Client.logout.
  cbn [Client.storage_token]. unfold authenticateToken. rewrite bearer_of.
  reflexivity.
Qed.

End ClientAndServer.

(* ------------------------------------------------------------------ *)
(** ** The properties above on the sample deployment *)

Lemma register_then_login_witness :
  login Sample.secret Sample.compare (Sample.at_ 1700000500)
        (snd (register Sample.secret Sample.hash (Sample.at_ 1700000300)
                       Sample.w0 Sample.carol))
        (Sample.post_login "carol" "s3cret!!")
  = Json 200 (Session "Login exitoso"
                (jwt_sign (access_claims 3 "carol") Sample.secret access_ttl
                          1700000500)
                {| pu_id := 3; pu_username := "carol";
                   pu_email := "c@x.com" |}).
Proof.
  apply (register_then_login Sample.secret Sample.hash Sample.compare
           (Sample.at_ 1700000300) (Sample.at_ 1700000500) Sample.w0
           Sample.carol (Sample.post_login "carol" "s3cret!!")).
  - reflexivity.
  - reflexivity.
  - reflexivity.
  - reflexivity.
  - reflexivity.
  - cbn. repeat constructor; cbn; intuition discriminate.
  - cbn. intuition discriminate.
  - cbn. intuition discriminate.
  - reflexivity.
  - reflexivity.
  - reflexivity.
Defined.

Lemma session_token_lifetime_witness :
  authenticateToken Sample.secret (Sample.at_ 1700000400)
    (Some (plain "Bearer " ++ Sample.access_token_of_alice))
  = Next Sample.as_alice
  /\ authenticateToken Sample.secret (Sample.at_ 1700086700)
       (Some (plain "Bearer " ++ Sample.access_token_of_alice))
     = Respond forbidden.
Proof.
  split.
  - apply (session_token_lifetime Sample.secret Sample.hash Sample.compare
             (Sample.at_ 1700000300) (Sample.at_ 1700000400) Sample.w0
             (Sample.post_login "alice" "pw123456") "Login exitoso"
             Sample.access_token_of_alice
             {| pu_id := 1; pu_username := "alice"; pu_email := "a@x.com" |}).
    + left. reflexivity.
    + reflexivity.
  - apply (session_token_lifetime Sample.secret Sample.hash Sample.compare
             (Sample.at_ 1700000300) (Sample.at_ 1700086700) Sample.w0
             (Sample.post_login "alice" "pw123456") "Login exitoso"
             Sample.access_token_of_alice
             {| pu_id := 1; pu_username := "alice"; pu_email := "a@x.com" |}).
    + left. reflexivity.
    + cbn. discriminate.
Defined.

Lemma refused_upload_registers_nothing_witness :
  Sample.run (Sample.at_ 1700000400) Sample.w0
    (Sample.post_upload (Sample.bearer_header Sample.access_token_of_alice)
                        Sample.setup_exe)
  = (Unhandled "Tipo de archivo no permitido", Sample.w0)
  /\ Sample.run (Sample.at_ 1700000400) Sample.w0
       (Sample.post_upload (Sample.bearer_header Sample.access_token_of_alice)
                           Sample.big_zip)
     = (Unhandled "File too large", Sample.w0)
  /\ Sample.run (Sample.at_ 1700000400) Sample.w_carol
       (Sample.post_upload (Sample.bearer_header Sample.access_token_of_carol)
                           Sample.big_zip)
     = (Unhandled "File too large",
        {| users := users Sample.w_carol; files := files Sample.w_carol;
           disk := "/srv/uploads/3" :: disk Sample.w_carol |}).
Proof.
  split; [|split].
  - apply (refused_upload_registers_nothing Sample.secret Sample.dir
             Sample.hash Sample.compare (Sample.at_ 1700000400) Sample.w0
             (Sample.post_upload
                (Sample.bearer_header Sample.access_token_of_alice)
                Sample.setup_exe)
             Sample.as_alice Sample.setup_exe);
      reflexivity.
  - destruct (refused_upload_registers_nothing Sample.secret Sample.dir
                Sample.hash Sample.compare (Sample.at_ 1700000400) Sample.w0
                (Sample.post_upload
                   (Sample.bearer_header Sample.access_token_of_alice)
                   Sample.big_zip)
                Sample.as_alice Sample.big_zip)
      as (_ & Hbig).
    + reflexivity.
    + reflexivity.
    + reflexivity.
    + reflexivity.
    + apply (Hbig 1%Z).
      * reflexivity.
      * reflexivity.
      * reflexivity.
  - destruct (refused_upload_registers_nothing Sample.secret Sample.dir
                Sample.hash Sample.compare (Sample.at_ 1700000400)
                Sample.w_carol
                (Sample.post_upload
                   (Sample.bearer_header Sample.access_token_of_carol)
                   Sample.big_zip)
                Sample.as_carol Sample.big_zip)
      as (_ & Hbig).
    + reflexivity.
    + reflexivity.
    + reflexivity.
    + reflexivity.
    + apply (Hbig 3%Z).
      * reflexivity.
      * reflexivity.
      * reflexivity.
Defined.

Lemma upload_then_download_witness :
  download (Sample.at_ 1700000500)
           (snd (Sample.run (Sample.at_ 1700000400) Sample.w0
                            Sample.upload_photo))
           Sample.as_alice 10
  = SendFile "/srv/uploads/1/1700000200-99-photo.JPG" "photo.JPG"
  /\ download (Sample.at_ 1700000500)
              (snd (Sample.run (Sample.at_ 1700000400) Sample.w0
                               Sample.upload_photo))
              Sample.as_bob 10
     = Json 500 (Err "Error al buscar archivo" (Some no_single_row)).
Proof.
  destruct (upload_then_download Sample.secret Sample.dir Sample.hash
              Sample.compare (Sample.at_ 1700000400) (Sample.at_ 1700000500)
              Sample.w0 Sample.upload_photo Sample.as_alice 1
              Sample.photo_jpg)
    as (_ & _ & Hown & Hother & _).
  - reflexivity.
  - reflexivity.
  - reflexivity.
  - reflexivity.
  - reflexivity.
  - reflexivity.
  - discriminate.
  - reflexivity.
  - reflexivity.
  - cbn. repeat constructor; cbn; intuition discriminate.
  - split; [exact Hown|]. apply (Hother Sample.as_bob 2%Z).
    + reflexivity.
    + discriminate.
Defined.

Lemma failed_registration_leaves_file_on_disk_witness :
  Sample.run (Sample.failing 1700000400 Sample.refused) Sample.w0
             Sample.upload_photo
  = (Json 500 (Err "Error al guardar archivo en base de datos"
                 (Some "connect ECONNREFUSED db.internal:5432")),
     {| users := users Sample.w0; files := files Sample.w0;
        disk := "/srv/uploads/1/1700000200-99-photo.JPG" :: disk Sample.w0 |}).
Proof.
  destruct (failed_registration_leaves_file_on_disk Sample.secret Sample.dir
              Sample.hash Sample.compare
              (Sample.failing 1700000400 Sample.refused) Sample.w0
              Sample.upload_photo Sample.as_alice 1 Sample.photo_jpg
              Sample.refused)
    as (Hrep & _).
  - reflexivity.
  - reflexivity.
  - reflexivity.
  - reflexivity.
  - reflexivity.
  - reflexivity.
  - discriminate.
  - apply Hrep. reflexivity.
Defined.

Lemma state_changing_requests_witness :
  req_method (Sample.post_share 7
                (Sample.bearer_header Sample.access_token_of_alice)) = POST.
Proof.
  apply (state_changing_requests Sample.secret Sample.dir Sample.hash
           Sample.compare (Sample.at_ 1700000300) Sample.w0
           (Sample.post_share 7
              (Sample.bearer_header Sample.access_token_of_alice))).
  cbn. discriminate.
Defined.

Lemma registry_rows_persist_witness :
  exists r',
    In r' (files (snd (Sample.run (Sample.at_ 1700000300) Sample.w0
                         (Sample.post_share 7
                            (Sample.bearer_header
                               Sample.access_token_of_alice)))))
    /\ file_id r' = 7%Z /\ user_id r' = 1%Z.
Proof.
  destruct (registry_rows_persist Sample.secret Sample.dir Sample.hash
              Sample.compare (Sample.at_ 1700000300) Sample.w0
              (Sample.post_share 7
                 (Sample.bearer_header Sample.access_token_of_alice))
              Sample.notes)
    as (r' & Hin & Hid & Howner & _).
  - cbn. auto.
  - exists r'. split; [exact Hin|]. split; [exact Hid | exact Howner].
Defined.

Lemma file_ids_stay_unique_witness :
  NoDup (map file_id
           (files (snd (Sample.run (Sample.at_ 1700000400) Sample.w0
                                   Sample.upload_photo)))).
Proof.
  apply (file_ids_stay_unique Sample.secret Sample.dir Sample.hash
           Sample.compare (Sample.at_ 1700000400) Sample.w0
           Sample.upload_photo).
  cbn. repeat constructor; cbn; intuition discriminate.
Defined.

Lemma scheme_word_is_not_checked_witness :
  authenticateToken Sample.secret (Sample.at_ 1700000400)
    (Some (plain "Token " ++ Sample.access_token_of_alice
           ++ plain " and more"))
  = authenticateToken Sample.secret (Sample.at_ 1700000400)
      (Some (plain "Bearer " ++ Sample.access_token_of_alice)).
Proof.
  destruct (scheme_word_is_not_checked Sample.secret (Sample.at_ 1700000400)
              "Token" Sample.access_token_of_alice (plain "and more"))
    as (Hextra & _).
  - cbn. intuition (subst; discriminate).
  - repeat constructor. discriminate.
  - exact Hextra.
Defined.

Lemma filter_ignores_case_of_name_witness :
  fileFilter {| originalname := "PHOTO.JPG"; mimetype := "image/jpeg";
                size := 1024 |}
  = fileFilter {| originalname := "photo.jpg"; mimetype := "image/jpeg";
                  size := 1024 |}.
Proof.
  apply (filter_ignores_case_of_name "PHOTO.JPG" "photo.jpg" "image/jpeg"
           1024 1024).
  reflexivity.
Defined.

Lemma name_without_dot_is_refused_witness :
  fileFilter Sample.makefile = false.
Proof.
  apply (name_without_dot_is_refused Sample.makefile).
  cbn. intuition (subst; discriminate).
Defined.

Lemma name_starting_with_its_only_dot_is_refused_witness :
  fileFilter Sample.dot_pdf = false.
Proof.
  apply (name_starting_with_its_only_dot_is_refused Sample.dot_pdf "pdf").
  - reflexivity.
  - cbn. intuition (subst; discriminate).
Defined.

Lemma public_id_is_clean_witness :
  Cloudinary.sanitize "report.v2.pdf" = "report.v2.pdf"%string.
Proof.
  destruct (public_id_is_clean 1700000000000 "report.v2.pdf")
    as (_ & _ & _ & _ & Hsame & _).
  apply Hsame. repeat constructor.
Defined.

Lemma server_starts_with_a_secret_witness :
  authenticateToken "tu_clave_secreta_muy_segura" (Sample.at_ 1700000400)
    (Some (plain "Bearer "
           ++ jwt_sign (access_claims 2 "bob") "tu_clave_secreta_muy_segura"
                       access_ttl 1700000400))
  = Next (access_claims 2 "bob").
Proof.
  destruct (server_starts_with_a_secret Sample.env0 Sample.settings0)
    as (_ & _ & _ & _ & Hforged).
  - reflexivity.
  - apply (Hforged eq_refl (Sample.at_ 1700000400) 2%Z "bob"%string).
Defined.

Lemma initDatabase_twice_is_once_witness :
  In "orders"%string
     (InitDb.tables (InitDb.initDatabase InitDb.no_failure
                                         ["orders"%string; "users"%string])).
Proof.
  destruct (initDatabase_twice_is_once ["orders"%string; "users"%string])
    as (_ & _ & Hkeep & _).
  apply Hkeep. cbn. auto.
Defined.

Lemma initDatabase_cleanup_witness :
  InitDb.connected
    (InitDb.initDatabase
       {| InitDb.connect_fails := None; InitDb.users_fails := None;
          InitDb.files_fails := Some "permission denied for schema public" |}
       []) = true
  /\ InitDb.released
       (InitDb.initDatabase
          {| InitDb.connect_fails := None; InitDb.users_fails := None;
             InitDb.files_fails := Some "permission denied for schema public" |}
          []) = false
  /\ InitDb.ended
       (InitDb.initDatabase
          {| InitDb.connect_fails := None; InitDb.users_fails := None;
             InitDb.files_fails := Some "permission denied for schema public" |}
          []) = false.
Proof.
  destruct (initDatabase_cleanup
              {| InitDb.connect_fails := None; InitDb.users_fails := None;
                 InitDb.files_fails :=
                   Some "permission denied for schema public" |} [])
    as (_ & _ & _ & _ & _ & Hleak & _).
  apply Hleak.
  - reflexivity.
  - right. discriminate.
Defined.

Lemma login_survives_reload_witness :
  authenticateToken Sample.secret (Sample.at_ 1700000400)
    (Client.dashboard_header
       (snd (Client.signed_in Sample.fresh_browser
               (login Sample.secret Sample.compare (Sample.at_ 1700000300)
                      Sample.w0 (Sample.post_login "alice" "pw123456")))))
  = Next Sample.as_alice.
Proof.
  destruct (login_survives_reload Sample.secret Sample.compare
              (Sample.at_ 1700000300) (Sample.at_ 1700000400) Sample.w0
              (Sample.post_login "alice" "pw123456") Sample.fresh_browser
              "Login exitoso" Sample.access_token_of_alice
              {| pu_id := 1; pu_username := "alice"; pu_email := "a@x.com" |})
    as (_ & _ & Hserver).
  - reflexivity.
  - reflexivity.
  - exact Hserver.
Defined.

Lemma flag_and_token_stay_in_step_witness :
  Forall sharing_consistent
         (files (snd (Sample.run (Sample.at_ 1700000300) Sample.w0
                        (Sample.post_share 7
                           (Sample.bearer_header
                              Sample.access_token_of_alice))))).
Proof.
  apply (flag_and_token_stay_in_step Sample.secret Sample.dir Sample.hash
           Sample.compare (Sample.at_ 1700000300) Sample.w0
           (Sample.post_share 7
              (Sample.bearer_header Sample.access_token_of_alice))).
  repeat constructor; cbn; try discriminate; intros H; now elim H.
Defined.
